(** * vergo-app: the authenticated API access layer

    A shallow embedding of [src/api/auth.ts] (the [authApi] object) together
    with the pieces it imports: the JavaScript runtime's [JSON] object
    (a parameter of the development), the [expo-secure-store] key/value
    store, and the [./client] module ([apiClient], [setAuthTokens],
    [clearAuthTokens], [STORAGE_KEYS]).

    Asynchronous functions are modelled in a state-and-exception monad over
    a [World] holding the secure store, the scripted answers of the remote
    service, the log of requests sent and the console. *)

From Stdlib Require Import ZArith Ascii String List Decimal DecimalZ Lia SpecFloat.
From stdpp Require Import base option list strings gmap.

Local Open Scope Z_scope.
Local Open Scope list_scope.

(** ** JavaScript values used by the access layer *)

(** JS truthiness of a string: every string but the empty one. *)
Definition truthy (s : string) : bool :=
  match s with
  | EmptyString => false
  | String _ _ => true
  end.

(** [a || b] on optional strings ([undefined] and the empty string are falsy). *)
Definition or_else (a : option string) (b : string) : string :=
  match a with
  | Some s => if truthy s then s else b
  | None => b
  end.

(** Truthiness of an optional string field ([response.data.token]). *)
Definition truthy_opt (a : option string) : bool :=
  match a with
  | Some s => truthy s
  | None => false
  end.

(** ** Characters and decimal digits *)
Module Text.

Definition chars (s : string) : list ascii := list_ascii_of_string s.

(** The double quote. *)
Definition dquote : ascii := "034"%char.

Fixpoint print_uint (u : Decimal.uint) : list ascii :=
  match u with
  | Nil => []
  | D0 u => "0"%char :: print_uint u
  | D1 u => "1"%char :: print_uint u
  | D2 u => "2"%char :: print_uint u
  | D3 u => "3"%char :: print_uint u
  | D4 u => "4"%char :: print_uint u
  | D5 u => "5"%char :: print_uint u
  | D6 u => "6"%char :: print_uint u
  | D7 u => "7"%char :: print_uint u
  | D8 u => "8"%char :: print_uint u
  | D9 u => "9"%char :: print_uint u
  end.

(** The decimal digits of an integer, with its sign: what a template
    literal prints for an integer below [10 ^ 21] in absolute value. *)
Definition print_int (n : Z) : list ascii :=
  match Z.to_int n with
  | Decimal.Pos u => print_uint u
  | Decimal.Neg u => "-"%char :: print_uint u
  end.

Definition digit_of (c : ascii) : option (Decimal.uint -> Decimal.uint) :=
  if Ascii.eqb c "0" then Some D0
  else if Ascii.eqb c "1" then Some D1
  else if Ascii.eqb c "2" then Some D2
  else if Ascii.eqb c "3" then Some D3
  else if Ascii.eqb c "4" then Some D4
  else if Ascii.eqb c "5" then Some D5
  else if Ascii.eqb c "6" then Some D6
  else if Ascii.eqb c "7" then Some D7
  else if Ascii.eqb c "8" then Some D8
  else if Ascii.eqb c "9" then Some D9
  else None.

(** The longest prefix of digits, and what follows it. *)
Fixpoint parse_digits (s : list ascii) : Decimal.uint * list ascii :=
  match s with
  | [] => (Nil, [])
  | c :: r =>
      match digit_of c with
      | Some d => let (u, rest) := parse_digits r in (d u, rest)
      | None => (Nil, s)
      end
  end.

(** [literal lit s]: [s] without its prefix [lit]. *)
Fixpoint literal (lit s : list ascii) : option (list ascii) :=
  match lit with
  | [] => Some s
  | c :: lit' =>
      match s with
      | [] => None
      | x :: r => if Ascii.eqb x c then literal lit' r else None
      end
  end.

(** A remainder that a number can be followed by. *)
Definition no_digit_head (r : list ascii) : Prop :=
  match r with
  | [] => True
  | c :: _ => digit_of c = None
  end.

End Text.
Import Text.

(** ** The runtime's JSON object

    The values a JSON text denotes in the JavaScript runtime: numbers are
    IEEE 754 doubles, strings are the UTF-8 bytes of the runtime's string,
    and an object is the list of the properties that define it, one after
    the other. *)
Module JSON.

#[local] Unset Elimination Schemes.
Inductive Json : Type :=
| Null
| Bool (b : bool)
| Number (x : spec_float)
| Str (s : string)
| Array (l : list Json)
| Object (m : list (string * Json)).
#[local] Set Elimination Schemes.

(** *** The two functions of the [JSON] object

    [JSON.stringify] and [JSON.parse] belong to the runtime, not to the
    repository: the development is stated for any runtime.  [parse]
    answers [None] where [JSON.parse] throws its [SyntaxError]. *)
Class Runtime : Type := {
  stringify : Json -> string;
  parse : string -> option Json
}.

End JSON.

(** ** ECMAScript's JSON, executable

    [JSON.parse] and [JSON.stringify] as ECMA-262 defines them (sections
    25.5.1, 25.5.2 and 6.1.6.1.20, Number::toString), for running the
    scenarios.  Numbers are rounded to the nearest double, ties to even;
    a double is printed with the fewest digits that read back as it. *)
Module ECMA.
Import JSON.

(** *** Numbers *)

(** Where the remainder [r] of a division by [d] lies. *)
Definition location_of (r d : Z) : location :=
  if r =? 0 then loc_Exact else loc_Inexact (2 * r ?= d).

(** The double nearest to [n / d], for [n] and [d] positive. *)
Definition round_ratio (negative : bool) (n d : Z) : spec_float :=
  let k := Z.max 0 (64 + Z.log2 d - Z.log2 n) in
  let scaled := n * 2 ^ k in
  binary_round_aux 53 1024 negative (scaled / d) (- k) (location_of (scaled mod d) d).

(** The double nearest to [D * 10 ^ E], for [D] not negative.  Beyond
    [10 ^ 400] it is infinite and below [10 ^ (-400)] it is zero, whatever
    the digits. *)
Definition double_of_decimal (negative : bool) (D E : Z) : spec_float :=
  if D <=? 0 then S754_zero negative
  else if 400 <? E then S754_infinity negative
  else if E + (Z.log2 D + 1) / 3 + 1 <? -400 then S754_zero negative
  else if 0 <=? E then round_ratio negative (D * 10 ^ E) 1
  else round_ratio negative D (10 ^ (- E)).

Definition double_of_Z (n : Z) : spec_float :=
  double_of_decimal (n <? 0) (Z.abs n) 0.

Definition same_double (x y : spec_float) : bool :=
  match x, y with
  | S754_zero s, S754_zero s' => Bool.eqb s s'
  | S754_infinity s, S754_infinity s' => Bool.eqb s s'
  | S754_nan, S754_nan => true
  | S754_finite s m e, S754_finite s' m' e' => Bool.eqb s s' && Pos.eqb m m' && (e =? e')
  | _, _ => false
  end.

(** [m * 2 ^ e] as a fraction. *)
Definition ratio (m : positive) (e : Z) : Z * Z :=
  if 0 <=? e then (Zpos m * 2 ^ e, 1) else (Zpos m, 2 ^ (- e)).

(** [N / D < 10 ^ n] *)
Definition below_pow10 (N D n : Z) : bool :=
  if 0 <=? n then N <? 10 ^ n * D else N * 10 ^ (- n) <? D.

(** The [n] with [10 ^ (n - 1) <= N / D < 10 ^ n]. *)
Definition decimal_exponent (N D : Z) : Z :=
  let fix search (fuel : nat) (n : Z) : Z :=
    match fuel with
    | O => n
    | S fuel => if below_pow10 N D n then n else search fuel (n + 1)
    end in
  search 6%nat ((Z.log2 N - Z.log2 D) * 30103 / 100000 - 1).

(** Number::toString, step 5: the digits [s] and the exponent [n] with the
    fewest digits [k] such that [s * 10 ^ (n - k)] is the double [x]; of
    two such [s] the nearer to [x], the even one on a tie.  [N / D] is the
    value of [x] and [n] its decimal exponent. *)
Fixpoint shortest (fuel : nat) (k : Z) (x : spec_float) (N D n : Z) : Z * Z :=
  let (a, b) := if 0 <=? k - n then (N * 10 ^ (k - n), D) else (N, D * 10 ^ (n - k)) in
  let lo := a / b in
  let hi := lo + 1 in
  let reads s := same_double (double_of_decimal false s (n - k)) x in
  let nearest :=
    match 2 * (a mod b) ?= b with
    | Lt => lo
    | Gt => hi
    | Eq => if Z.even lo then lo else hi
    end in
  let found s := if s =? 10 ^ k then (1, n + 1) else (s, n) in
  if reads lo && reads hi then found nearest
  else if reads lo then found lo
  else if reads hi then found hi
  else
    match fuel with
    | O => found nearest
    | S fuel => shortest fuel (k + 1) x N D n
    end.

Definition digits_of (s : Z) : list ascii := print_uint (Pos.to_uint (Z.to_pos s)).

(** Number::toString, steps 6 to 10: the digits laid out. *)
Definition layout (ds : list ascii) (n : Z) : list ascii :=
  let k := Z.of_nat (length ds) in
  if (k <=? n) && (n <=? 21) then ds ++ List.repeat "0"%char (Z.to_nat (n - k))
  else if (0 <? n) && (n <=? 21) then
    List.firstn (Z.to_nat n) ds ++ "."%char :: List.skipn (Z.to_nat n) ds
  else if (-6 <? n) && (n <=? 0) then
    "0"%char :: "."%char :: List.repeat "0"%char (Z.to_nat (- n)) ++ ds
  else
    let e := n - 1 in
    let mantissa :=
      match ds with
      | d :: (_ :: _) as rest => d :: "."%char :: rest
      | _ => ds
      end in
    mantissa ++ "e"%char :: (if e <? 0 then "-"%char else "+"%char) :: digits_of (Z.abs e).

(** The text of a finite number; [None] for NaN and the infinities. *)
Definition number_text (x : spec_float) : option (list ascii) :=
  match x with
  | S754_zero _ => Some ["0"%char]
  | S754_finite s m e =>
      let (N, D) := ratio m e in
      match round_ratio false N D with
      | S754_finite _ m' e' =>
          let (N', D') := ratio m' e' in
          let (d, n) :=
            shortest 17%nat 1 (S754_finite false m' e') N' D' (decimal_exponent N' D') in
          Some ((if s then ["-"%char] else []) ++ layout (digits_of d) n)
      | _ => None
      end
  | _ => None
  end.

(** The number a JSON text writes: an optional minus, an integer part
    without leading zero, an optional fraction, an optional exponent. *)
Definition parse_number (s : list ascii) : option (spec_float * list ascii) :=
  let (negative, s1) :=
    match s with
    | c :: r => if Ascii.eqb c "-" then (true, r) else (false, s)
    | [] => (false, s)
    end in
  let integer :=
    match s1 with
    | c :: r =>
        if Ascii.eqb c "0" then Some (D0 Nil, r)
        else
          match parse_digits s1 with
          | (Nil, _) => None
          | (u, rest) => Some (u, rest)
          end
    | [] => None
    end in
  match integer with
  | None => None
  | Some (i, s2) =>
      let fraction :=
        match s2 with
        | c :: r =>
            if Ascii.eqb c "." then
              match parse_digits r with
              | (Nil, _) => None
              | (f, rest) => Some (f, rest)
              end
            else Some (Nil, s2)
        | [] => Some (Nil, s2)
        end in
      match fraction with
      | None => None
      | Some (f, s3) =>
          let exponent :=
            match s3 with
            | c :: r =>
                if Ascii.eqb c "e" || Ascii.eqb c "E" then
                  let (minus, r') :=
                    match r with
                    | x :: r'' =>
                        if Ascii.eqb x "-" then (true, r'')
                        else if Ascii.eqb x "+" then (false, r'')
                        else (false, r)
                    | [] => (false, r)
                    end in
                  match parse_digits r' with
                  | (Nil, _) => None
                  | (x, rest) =>
                      Some (if minus : bool then - Z.of_uint x else Z.of_uint x, rest)
                  end
                else Some (0, s3)
            | [] => Some (0, s3)
            end in
          match exponent with
          | None => None
          | Some (e, s4) =>
              Some (double_of_decimal negative (Z.of_uint (Decimal.app i f))
                      (e - Z.of_nat (Decimal.nb_digits f)), s4)
          end
      end
  end.

(** *** Strings *)

Definition hex_digit (n : N) : ascii :=
  ascii_of_N (if (n <? 10)%N then 48 + n else 87 + n)%N.

(** [\uxxxx] for a code unit. *)
Definition unicode_escape (u : N) : list ascii :=
  ["\"%char; "u"%char; hex_digit (u / 4096); hex_digit ((u / 256) mod 16);
   hex_digit ((u / 16) mod 16); hex_digit (u mod 16)]%N.

(** QuoteJSONString on one character: short escapes where they exist,
    [\u00xx] for the other control characters. *)
Definition escape_char (c : ascii) : list ascii :=
  if Ascii.eqb c dquote then ["\"%char; dquote]
  else if Ascii.eqb c "\" then ["\"%char; "\"%char]
  else if Ascii.eqb c "008" then ["\"%char; "b"%char]
  else if Ascii.eqb c "012" then ["\"%char; "f"%char]
  else if Ascii.eqb c "010" then ["\"%char; "n"%char]
  else if Ascii.eqb c "013" then ["\"%char; "r"%char]
  else if Ascii.eqb c "009" then ["\"%char; "t"%char]
  else if (N_of_ascii c <? 32)%N then unicode_escape (N_of_ascii c)
  else [c].

(** The code unit of a surrogate that stands alone, which the bytes hold
    in three bytes as any other code unit of its range. *)
Definition lone_surrogate (c1 c2 c3 : ascii) : option N :=
  let b1 := N_of_ascii c1 in
  let b2 := N_of_ascii c2 in
  let b3 := N_of_ascii c3 in
  if ((b1 =? 237) && (160 <=? b2) && (b2 <=? 191) && (128 <=? b3) && (b3 <=? 191))%N
  then Some (53248 + (b2 - 128) * 64 + (b3 - 128))%N
  else None.

Fixpoint escape (s : list ascii) : list ascii :=
  match s with
  | [] => []
  | c :: r =>
      match r with
      | c2 :: c3 :: r2 =>
          match lone_surrogate c c2 c3 with
          | Some u => unicode_escape u ++ escape r2
          | None => escape_char c ++ escape r
          end
      | _ => escape_char c ++ escape r
      end
  end.

Definition quote (s : string) : list ascii :=
  dquote :: escape (chars s) ++ [dquote].

Definition prepend {A} (cs : list A) (r : option (list A * list ascii))
  : option (list A * list ascii) :=
  match r with
  | Some (xs, rest) => Some (cs ++ xs, rest)
  | None => None
  end.

Definition unescape (e : ascii) : option ascii :=
  if Ascii.eqb e dquote then Some dquote
  else if Ascii.eqb e "\" then Some "\"%char
  else if Ascii.eqb e "/" then Some "/"%char
  else if Ascii.eqb e "b" then Some "008"%char
  else if Ascii.eqb e "f" then Some "012"%char
  else if Ascii.eqb e "n" then Some "010"%char
  else if Ascii.eqb e "r" then Some "013"%char
  else if Ascii.eqb e "t" then Some "009"%char
  else None.

Definition hex_value (c : ascii) : option N :=
  let n := N_of_ascii c in
  if ((48 <=? n) && (n <=? 57))%N then Some (n - 48)%N
  else if ((97 <=? n) && (n <=? 102))%N then Some (n - 87)%N
  else if ((65 <=? n) && (n <=? 70))%N then Some (n - 55)%N
  else None.

Definition hex4 (h1 h2 h3 h4 : ascii) : option N :=
  match hex_value h1, hex_value h2, hex_value h3, hex_value h4 with
  | Some a, Some b, Some c, Some d => Some (((a * 16 + b) * 16 + c) * 16 + d)%N
  | _, _, _, _ => None
  end.

(** The bytes of a code point (of a code unit, for a lone surrogate). *)
Definition utf8 (u : N) : list ascii :=
  (if u <? 128 then [ascii_of_N u]
   else if u <? 2048 then [ascii_of_N (192 + u / 64); ascii_of_N (128 + u mod 64)]
   else if u <? 65536 then
     [ascii_of_N (224 + u / 4096); ascii_of_N (128 + (u / 64) mod 64);
      ascii_of_N (128 + u mod 64)]
   else
     [ascii_of_N (240 + u / 262144); ascii_of_N (128 + (u / 4096) mod 64);
      ascii_of_N (128 + (u / 64) mod 64); ascii_of_N (128 + u mod 64)])%N.

(** The code point of a high surrogate [u] followed by the escape
    [\u] of a low surrogate. *)
Definition surrogate_pair (u : N) (b v : ascii) (low : option N) : option N :=
  if ((55296 <=? u) && (u <=? 56319))%N && Ascii.eqb b "\" && Ascii.eqb v "u" then
    match low with
    | Some l =>
        if ((56320 <=? l) && (l <=? 57343))%N
        then Some (65536 + (u - 55296) * 1024 + (l - 56320))%N
        else None
    | None => None
    end
  else None.

(** The characters of a string literal after its opening quote, up to and
    including the closing quote. *)
Fixpoint parse_chars (s : list ascii) : option (list ascii * list ascii) :=
  match s with
  | [] => None
  | c :: r =>
      if Ascii.eqb c dquote then Some ([], r)
      else if Ascii.eqb c "\" then
        match r with
        | [] => None
        | e :: r1 =>
            match unescape e with
            | Some d => prepend [d] (parse_chars r1)
            | None =>
                if Ascii.eqb e "u" then
                  match r1 with
                  | h1 :: h2 :: h3 :: h4 :: r2 =>
                      match hex4 h1 h2 h3 h4 with
                      | Some u =>
                          match r2 with
                          | b :: v :: g1 :: g2 :: g3 :: g4 :: r3 =>
                              match surrogate_pair u b v (hex4 g1 g2 g3 g4) with
                              | Some point => prepend (utf8 point) (parse_chars r3)
                              | None => prepend (utf8 u) (parse_chars r2)
                              end
                          | _ => prepend (utf8 u) (parse_chars r2)
                          end
                      | None => None
                      end
                  | _ => None
                  end
                else None
            end
        end
      else if (N_of_ascii c <? 32)%N then None
      else prepend [c] (parse_chars r)
  end.

Definition parse_string (s : list ascii) : option (string * list ascii) :=
  match s with
  | [] => None
  | c :: r =>
      if Ascii.eqb c dquote then
        match parse_chars r with
        | Some (cs, rest) => Some (string_of_list_ascii cs, rest)
        | None => None
        end
      else None
  end.

(** *** Objects *)

(** A property set: the last value of a key, at the place of its first. *)
Fixpoint set_member {A} (k : string) (v : A) (m : list (string * A))
  : list (string * A) :=
  match m with
  | [] => [(k, v)]
  | (k', v') :: m' =>
      if String.eqb k k' then (k, v) :: m' else (k', v') :: set_member k v m'
  end.

(** An array index: the canonical digits of an integer below [2 ^ 32 - 1]. *)
Definition array_index (k : string) : option Z :=
  match chars k with
  | [] => None
  | c :: r =>
      match parse_digits (c :: r) with
      | (u, []) =>
          if Ascii.eqb c "0" && negb (match r with [] => true | _ :: _ => false end)
          then None
          else if Z.of_uint u <=? 4294967294 then Some (Z.of_uint u) else None
      | (_, _ :: _) => None
      end
  end.

Fixpoint insert_index {A} (n : Z) (kv : string * A) (l : list (Z * (string * A)))
  : list (Z * (string * A)) :=
  match l with
  | [] => [(n, kv)]
  | (n', kv') :: l' =>
      if n <? n' then (n, kv) :: l else (n', kv') :: insert_index n kv l'
  end.

(** The properties of the object that [members] define one after the
    other, in enumeration order: array indices ascending, then the other
    keys in the order they were created. *)
Definition properties {A} (members : list (string * A)) : list (string * A) :=
  let set := fold_left (fun acc kv => set_member (fst kv) (snd kv) acc) members [] in
  let indices :=
    fold_right
      (fun kv acc =>
         match array_index (fst kv) with
         | Some n => insert_index n kv acc
         | None => acc
         end) [] set in
  map snd indices
    ++ List.filter
         (fun kv => match array_index (fst kv) with Some _ => false | None => true end) set.

(** *** Values *)

(** Items separated by commas. *)
Fixpoint join (l : list (list ascii)) : list ascii :=
  match l with
  | [] => []
  | x :: l' =>
      match l' with
      | [] => x
      | _ :: _ => x ++ ","%char :: join l'
      end
  end.

Fixpoint print (v : Json) : list ascii :=
  match v with
  | Null => chars "null"
  | Bool true => chars "true"
  | Bool false => chars "false"
  | Number x =>
      match number_text x with
      | Some text => text
      | None => chars "null"
      end
  | Str s => quote s
  | Array l => "["%char :: join (map print l) ++ ["]"%char]
  | Object m =>
      "{"%char
        :: join (map (fun kv => quote (fst kv) ++ ":"%char :: snd kv)
                   (properties (map (fun kv => (fst kv, print (snd kv))) m)))
        ++ ["}"%char]
  end.

(** [JSON.stringify(value)], without replacer and indentation. *)
Definition stringify (v : Json) : string := string_of_list_ascii (print v).

Definition is_ws (c : ascii) : bool :=
  Ascii.eqb c " " || Ascii.eqb c "009" || Ascii.eqb c "010" || Ascii.eqb c "013".

Fixpoint skip_ws (s : list ascii) : list ascii :=
  match s with
  | [] => []
  | c :: r => if is_ws c then skip_ws r else s
  end.

(** [s], after white space, without its first character [c]. *)
Definition expect (c : ascii) (s : list ascii) : option (list ascii) :=
  match skip_ws s with
  | [] => None
  | x :: r => if Ascii.eqb x c then Some r else None
  end.

Fixpoint parse_value (fuel : nat) (s : list ascii) {struct fuel}
  : option (Json * list ascii) :=
  match fuel with
  | O => None
  | S fuel =>
      match skip_ws s with
      | [] => None
      | c :: r =>
          if Ascii.eqb c "n" then
            match literal (chars "ull") r with Some rest => Some (Null, rest) | None => None end
          else if Ascii.eqb c "t" then
            match literal (chars "rue") r with Some rest => Some (Bool true, rest) | None => None end
          else if Ascii.eqb c "f" then
            match literal (chars "alse") r with Some rest => Some (Bool false, rest) | None => None end
          else if Ascii.eqb c dquote then
            match parse_string (c :: r) with
            | Some (str, rest) => Some (Str str, rest)
            | None => None
            end
          else if Ascii.eqb c "[" then
            match expect "]" r with
            | Some rest => Some (Array [], rest)
            | None =>
                match parse_elements fuel r with
                | Some (l, rest) => Some (Array l, rest)
                | None => None
                end
            end
          else if Ascii.eqb c "{" then
            match expect "}" r with
            | Some rest => Some (Object [], rest)
            | None =>
                match parse_members fuel r with
                | Some (m, rest) => Some (Object (properties m), rest)
                | None => None
                end
            end
          else
            match parse_number (c :: r) with
            | Some (x, rest) => Some (Number x, rest)
            | None => None
            end
      end
  end
with parse_elements (fuel : nat) (s : list ascii) {struct fuel}
  : option (list Json * list ascii) :=
  match fuel with
  | O => None
  | S fuel =>
      match parse_value fuel s with
      | Some (v, r) =>
          match expect "]" r with
          | Some rest => Some ([v], rest)
          | None =>
              match expect "," r with
              | Some r' => prepend [v] (parse_elements fuel r')
              | None => None
              end
          end
      | None => None
      end
  end
with parse_members (fuel : nat) (s : list ascii) {struct fuel}
  : option (list (string * Json) * list ascii) :=
  match fuel with
  | O => None
  | S fuel =>
      match parse_string (skip_ws s) with
      | Some (k, r0) =>
          match expect ":" r0 with
          | Some r1 =>
              match parse_value fuel r1 with
              | Some (v, r) =>
                  match expect "}" r with
                  | Some rest => Some ([(k, v)], rest)
                  | None =>
                      match expect "," r with
                      | Some r' => prepend [(k, v)] (parse_members fuel r')
                      | None => None
                      end
                  end
              | None => None
              end
          | None => None
          end
      | None => None
      end
  end.

(** [JSON.parse(text)], without reviver: [None] stands for the
    [SyntaxError] it throws. *)
Definition parse (s : string) : option Json :=
  let cs := chars s in
  match parse_value (S (length cs)) cs with
  | Some (v, rest) =>
      match skip_ws rest with
      | [] => Some v
      | _ :: _ => None
      end
  | None => None
  end.

End ECMA.

(** The runtime the scenarios run on. *)
Definition ecma : JSON.Runtime :=
  {| JSON.stringify := ECMA.stringify; JSON.parse := ECMA.parse |}.


Import JSON.

(** ** Types of the access layer *)

(** [UserType] ([../types]): the two account kinds the code compares
    against, with the strings they are at run time. *)
Inductive UserType : Type := jobseeker | client.

Definition UserType_str (t : UserType) : string :=
  match t with
  | jobseeker => "jobseeker"
  | client => "client"
  end.

(** [JobSeeker | ClientCompany]: the members of a JSON object. *)
Definition User : Type := list (string * Json).

Module LoginRequest.
Record t : Type := { email : string; password : string; userType : UserType }.
End LoginRequest.

Module BackendAuthResponse.
Record t : Type := {
    ok : bool;
    error : option string;
    code : option string;
    user : option User;
    token : option string;
    refreshToken : option string
  }.
End BackendAuthResponse.

Module LoginResponse.
Record t : Type := {
    token : string;
    refreshToken : string;
    user : User;
    userType : UserType
  }.
End LoginResponse.

(** What [checkAuth] returns; [userType] is the stored string, cast
    unchecked, and [user] whatever [JSON.parse] returned. *)
Module AuthState.
Record t : Type := {
    isAuthenticated : bool;
    userType : option string;
    user : option Json
  }.
End AuthState.

(** ** The world: secure store, remote service, console *)

Inductive Method : Type := GET | POST | PUT.

Record Request : Type := {
  method : Method;
  url : string;
  bearer : option string;
  body : option Json
}.

(** What the remote service answers to one request. *)
Inductive HttpOutcome : Type :=
| NetworkFailure
| HttpResponse (status : nat) (data : BackendAuthResponse.t).

Record AxiosResponse : Type := { status : nat; data : BackendAuthResponse.t }.

(** [network] is the script of the remote service: the answers it will
    give, in order, to the requests sent from now on (a network failure once
    the script is over); [requests] logs every request sent. *)
Record World : Type := {
  secureStore : gmap string string;
  network : list HttpOutcome;
  requests : list Request;
  console : list string
}.

(** What an asynchronous function can be rejected with. *)
Inductive Exn : Type :=
| Error (message : string)
| SyntaxError
| HttpError (status : nat) (data : BackendAuthResponse.t)
| NetworkError
| AuthExpired.

Inductive Settled (A : Type) : Type :=
| Resolved (a : A)
| Rejected (e : Exn).
Arguments Resolved {A} a.
Arguments Rejected {A} e.

(** An [async] function: it runs on a world and settles, keeping the
    effects it had when it is rejected. *)
Definition Promise (A : Type) : Type := World -> Settled A * World.

Definition ret {A} (a : A) : Promise A := fun w => (Resolved a, w).

Definition throw {A} (e : Exn) : Promise A := fun w => (Rejected e, w).

Definition bind {A B} (c : Promise A) (k : A -> Promise B) : Promise B :=
  fun w =>
    match c w with
    | (Resolved a, w') => k a w'
    | (Rejected e, w') => (Rejected e, w')
    end.

Definition try_catch {A} (c : Promise A) (handler : Exn -> Promise A) : Promise A :=
  fun w =>
    match c w with
    | (Resolved a, w') => (Resolved a, w')
    | (Rejected e, w') => handler e w'
    end.

Declare Scope promise_scope.
Delimit Scope promise_scope with promise.
Notation "x <- c ;; k" := (bind c (fun x => k))
  (at level 100, c at next level, k at level 200, right associativity) : promise_scope.
Notation "'do' c ;; k" := (bind c (fun _ => k))
  (at level 100, c at next level, k at level 200, right associativity) : promise_scope.
Local Open Scope promise_scope.

Definition with_store (f : gmap string string -> gmap string string) (w : World) : World :=
  {| secureStore := f (secureStore w);
     network := network w;
     requests := requests w;
     console := console w |}.

(** [expo-secure-store], on a device whose storage is available. *)
Module SecureStore.
Definition getItemAsync (key : string) : Promise (option string) :=
    fun w => (Resolved (secureStore w !! key), w).

Definition setItemAsync (key value : string) : Promise unit :=
    fun w => (Resolved tt, with_store (insert key value) w).

Definition deleteItemAsync (key : string) : Promise unit :=
    fun w => (Resolved tt, with_store (delete key) w).
End SecureStore.

Definition console_warn (message : string) : Promise unit :=
  fun w =>
    (Resolved tt,
     {| secureStore := secureStore w;
        network := network w;
        requests := requests w;
        console := console w ++ [message] |}).

(** [JSON.parse] inside an [async] function: a [SyntaxError] rejects it. *)
Definition JSON_parse {runtime : JSON.Runtime} (text : string) : Promise Json :=
  match JSON.parse text with
  | Some v => ret v
  | None => throw SyntaxError
  end.

(** One request on the wire: it is logged, and the remote service gives its
    next answer. *)
Definition send (r : Request) : Promise HttpOutcome :=
  fun w =>
    match network w with
    | [] =>
        (Resolved NetworkFailure,
         {| secureStore := secureStore w;
            network := [];
            requests := requests w ++ [r];
            console := console w |})
    | o :: rest =>
        (Resolved o,
         {| secureStore := secureStore w;
            network := rest;
            requests := requests w ++ [r];
            console := console w |})
    end.

Definition is_2xx (status : nat) : bool := (200 <=? status)%nat && (status <? 300)%nat.

Definition is_401 (o : HttpOutcome) : bool :=
  match o with
  | HttpResponse status _ => (status =? 401)%nat
  | NetworkFailure => false
  end.

(** The names of the four entries: [STORAGE_KEYS] of [./client], which is
    not among the sources, is a parameter of the development. *)
Record StorageKeys : Type := {
  ACCESS_TOKEN : string;
  REFRESH_TOKEN : string;
  USER_TYPE : string;
  USER_DATA : string
}.

(** The four entries are independently addressed (spec, section 3). *)
Definition independent (K : StorageKeys) : Prop :=
  NoDup [ACCESS_TOKEN K; REFRESH_TOKEN K; USER_TYPE K; USER_DATA K].

(** The four entries of a store, in the order access token, refresh token,
    account kind, user record. *)
Definition entries (K : StorageKeys) (m : gmap string string) : list (option string) :=
  [m !! ACCESS_TOKEN K; m !! REFRESH_TOKEN K; m !! USER_TYPE K; m !! USER_DATA K].

Section Api.

Variable STORAGE_KEYS : StorageKeys.
Context {runtime : JSON.Runtime}.

(** ** [./client] *)

(** Modelled from the spec: [setAuthTokens] of [./client], which is not
    among the sources: it persists the access token and the refresh
    token. *)
Definition setAuthTokens (accessToken refreshToken : string) : Promise unit :=
  do SecureStore.setItemAsync (ACCESS_TOKEN STORAGE_KEYS) accessToken ;;
  SecureStore.setItemAsync (REFRESH_TOKEN STORAGE_KEYS) refreshToken.

(** Modelled from the spec: [clearAuthTokens] of [./client], which is not
    among the sources: it clears the entire Credential Record, the four
    entries. *)
Definition clearAuthTokens : Promise unit :=
  do SecureStore.deleteItemAsync (ACCESS_TOKEN STORAGE_KEYS) ;;
  do SecureStore.deleteItemAsync (REFRESH_TOKEN STORAGE_KEYS) ;;
  do SecureStore.deleteItemAsync (USER_TYPE STORAGE_KEYS) ;;
  SecureStore.deleteItemAsync (USER_DATA STORAGE_KEYS).

(** Modelled from the spec: the Token-Aware Transport, [apiClient] of
    [./client], which is not among the sources (spec, 4.2).  Status codes
    other than 2xx and network failures reach the caller as typed errors. *)
Definition settle (o : HttpOutcome) : Promise AxiosResponse :=
  match o with
  | NetworkFailure => throw NetworkError
  | HttpResponse status data =>
      if is_2xx status then ret {| status := status; data := data |}
      else throw (HttpError status data)
  end.

(** Modelled from the spec: the refresh endpoint (spec, section 6). *)
Definition REFRESH_URL : string := "/refresh".

(** Modelled from the spec: the refresh call, made with the stored refresh
    token. *)
Definition refresh_request (refreshToken : option string) : Request :=
  {| method := POST;
     url := REFRESH_URL;
     bearer := None;
     body := Some (Object [("refreshToken"%string,
                            match refreshToken with Some r => Str r | None => Null end)]) |}.

(** Modelled from the spec: a refresh fails on a network error or a status
    other than 2xx; it succeeds when it is answered 2xx with the new access
    token to persist. *)
Definition refreshed_token (o : HttpOutcome) : option string :=
  match o with
  | NetworkFailure => None
  | HttpResponse status data =>
      if is_2xx status then BackendAuthResponse.token data else None
  end.

(** Modelled from the spec: one refresh call with the stored refresh token;
    when it succeeds the new access token is persisted and the original
    request is issued once more, its outcome being final; when it fails the
    Credential Record is cleared and the caller gets AuthExpired. *)
Definition refresh_and_retry (m : Method) (u : string) (b : option Json)
  : Promise AxiosResponse :=
  refreshToken <- SecureStore.getItemAsync (REFRESH_TOKEN STORAGE_KEYS) ;;
  refreshed <- send (refresh_request refreshToken) ;;
  match refreshed_token refreshed with
  | Some newToken =>
      do SecureStore.setItemAsync (ACCESS_TOKEN STORAGE_KEYS) newToken ;;
      second <- send {| method := m; url := u; bearer := Some newToken; body := b |} ;;
      settle second
  | None =>
      do clearAuthTokens ;;
      throw AuthExpired
  end.

(** Modelled from the spec: every request carries the stored access token
    when there is one; a 401 on a request that carried a credential starts
    the refresh cycle. *)
Definition apiClient_request (m : Method) (u : string) (b : option Json)
  : Promise AxiosResponse :=
  accessToken <- SecureStore.getItemAsync (ACCESS_TOKEN STORAGE_KEYS) ;;
  first <- send {| method := m; url := u; bearer := accessToken; body := b |} ;;
  match accessToken with
  | Some _ => if is_401 first then refresh_and_retry m u b else settle first
  | None => settle first
  end.

(** Modelled from the spec: the three verbs [authApi] uses. *)
Definition apiClient_get (u : string) : Promise AxiosResponse :=
  apiClient_request GET u None.

Definition apiClient_post (u : string) (b : option Json) : Promise AxiosResponse :=
  apiClient_request POST u b.

Definition apiClient_put (u : string) (b : option Json) : Promise AxiosResponse :=
  apiClient_request PUT u b.

(** ** [authApi] ([src/api/auth.ts]) *)

(** The guard [data.ok && data.token && data.user], with the fields it
    narrows. *)
Definition ok_token_user (d : BackendAuthResponse.t) : option (string * User) :=
  if BackendAuthResponse.ok d then
    match BackendAuthResponse.token d, BackendAuthResponse.user d with
    | Some token, Some user => if truthy token then Some (token, user) else None
    | _, _ => None
    end
  else None.

(** The guard [data.ok && data.user]. *)
Definition ok_user (d : BackendAuthResponse.t) : option User :=
  if BackendAuthResponse.ok d then BackendAuthResponse.user d else None.

Definition login (credentials : LoginRequest.t) : Promise LoginResponse.t :=
  let endpoint :=
    match LoginRequest.userType credentials with
    | jobseeker => "/api/v1/user/mobile/login"
    | client => "/api/v1/client/mobile/login"
    end%string in
  response <- apiClient_post endpoint
    (Some (Object [("email"%string, Str (LoginRequest.email credentials));
                   ("password"%string, Str (LoginRequest.password credentials))])) ;;
  match ok_token_user (data response) with
  | Some (token, user) =>
      let refreshToken := BackendAuthResponse.refreshToken (data response) in
      do setAuthTokens token (or_else refreshToken token) ;;
      do SecureStore.setItemAsync (USER_TYPE STORAGE_KEYS)
           (UserType_str (LoginRequest.userType credentials)) ;;
      do SecureStore.setItemAsync (USER_DATA STORAGE_KEYS) (JSON.stringify (Object user)) ;;
      ret {| LoginResponse.token := token;
             LoginResponse.refreshToken := or_else refreshToken token;
             LoginResponse.user := user;
             LoginResponse.userType := LoginRequest.userType credentials |}
  | None =>
      throw (Error (or_else (BackendAuthResponse.error (data response)) "Login failed"))
  end.

Definition registerJobSeeker (data_ : Json) : Promise LoginResponse.t :=
  response <- apiClient_post "/api/v1/user/mobile/register" (Some data_) ;;
  match ok_token_user (data response) with
  | Some (token, user) =>
      let refreshToken := BackendAuthResponse.refreshToken (data response) in
      do setAuthTokens token (or_else refreshToken token) ;;
      do SecureStore.setItemAsync (USER_TYPE STORAGE_KEYS) "jobseeker" ;;
      do SecureStore.setItemAsync (USER_DATA STORAGE_KEYS) (JSON.stringify (Object user)) ;;
      ret {| LoginResponse.token := token;
             LoginResponse.refreshToken := or_else refreshToken token;
             LoginResponse.user := user;
             LoginResponse.userType := jobseeker |}
  | None =>
      throw (Error (or_else (BackendAuthResponse.error (data response))
                      "Registration failed"))
  end.

Definition registerClient (data_ : Json) : Promise LoginResponse.t :=
  response <- apiClient_post "/api/v1/client/mobile/register" (Some data_) ;;
  match ok_token_user (data response) with
  | Some (token, user) =>
      let refreshToken := BackendAuthResponse.refreshToken (data response) in
      do setAuthTokens token (or_else refreshToken token) ;;
      do SecureStore.setItemAsync (USER_TYPE STORAGE_KEYS) "client" ;;
      do SecureStore.setItemAsync (USER_DATA STORAGE_KEYS) (JSON.stringify (Object user)) ;;
      ret {| LoginResponse.token := token;
             LoginResponse.refreshToken := or_else refreshToken token;
             LoginResponse.user := user;
             LoginResponse.userType := client |}
  | None =>
      throw (Error (or_else (BackendAuthResponse.error (data response))
                      "Registration failed"))
  end.

Definition logout : Promise unit :=
  do try_catch
       (do apiClient_post "/api/v1/user/logout" None ;; ret tt)
       (fun error => console_warn "Logout API call failed:") ;;
  clearAuthTokens.

Definition getCurrentUser (userType : UserType) : Promise User :=
  let endpoint :=
    match userType with
    | jobseeker => "/api/v1/user/me"
    | client => "/api/v1/client/me"
    end%string in
  response <- apiClient_get endpoint ;;
  match ok_user (data response) with
  | Some user => ret user
  | None =>
      throw (Error (or_else (BackendAuthResponse.error (data response))
                      "Failed to get user"))
  end.

Definition forgotPassword (email : string) (userType : UserType) : Promise unit :=
  let endpoint :=
    match userType with
    | jobseeker => "/api/v1/user/forgot-password"
    | client => "/api/v1/client/forgot-password"
    end%string in
  do apiClient_post endpoint (Some (Object [("email"%string, Str email)])) ;;
  ret tt.

Definition updateJobSeekerProfile (data_ : User) : Promise User :=
  response <- apiClient_put "/api/v1/user/profile" (Some (Object data_)) ;;
  match ok_user (data response) with
  | Some user =>
      do SecureStore.setItemAsync (USER_DATA STORAGE_KEYS) (JSON.stringify (Object user)) ;;
      ret user
  | None =>
      throw (Error (or_else (BackendAuthResponse.error (data response))
                      "Failed to update profile"))
  end.

Definition updateClientProfile (data_ : User) : Promise User :=
  response <- apiClient_put "/api/v1/client/profile" (Some (Object data_)) ;;
  match ok_user (data response) with
  | Some user =>
      do SecureStore.setItemAsync (USER_DATA STORAGE_KEYS) (JSON.stringify (Object user)) ;;
      ret user
  | None =>
      throw (Error (or_else (BackendAuthResponse.error (data response))
                      "Failed to update profile"))
  end.

Definition unauthenticated : AuthState.t :=
  {| AuthState.isAuthenticated := false;
     AuthState.userType := None;
     AuthState.user := None |}.

Definition checkAuth : Promise AuthState.t :=
  try_catch
    (token <- SecureStore.getItemAsync (ACCESS_TOKEN STORAGE_KEYS) ;;
     userType <- SecureStore.getItemAsync (USER_TYPE STORAGE_KEYS) ;;
     userData <- SecureStore.getItemAsync (USER_DATA STORAGE_KEYS) ;;
     match userData with
     | Some text =>
         if truthy_opt token && truthy_opt userType && truthy text then
           user <- JSON_parse text ;;
           ret {| AuthState.isAuthenticated := true;
                  AuthState.userType := userType;
                  AuthState.user := Some user |}
         else ret unauthenticated
     | None => ret unauthenticated
     end)
    (fun error =>
       do console_warn "Auth check failed:" ;;
       ret unauthenticated).

Definition registerPushToken (token : string) : Promise unit :=
  do apiClient_post "/api/v1/notifications/register"
       (Some (Object [("pushToken"%string, Str token)])) ;;
  ret tt.

End Api.

(** ** Vocabulary of the statements *)

Definition present (e : option string) : bool :=
  match e with
  | Some _ => true
  | None => false
  end.

(** How many of the four entries a store holds. *)
Definition present_count (K : StorageKeys) (m : gmap string string) : nat :=
  length (List.filter present (entries K m)).

(** What the caller gets for an outcome of the remote service. *)
Definition settled (o : HttpOutcome) : Settled AxiosResponse :=
  match o with
  | NetworkFailure => Rejected NetworkError
  | HttpResponse status data =>
      if is_2xx status then Resolved {| status := status; data := data |}
      else Rejected (HttpError status data)
  end.

Definition is_refresh (r : Request) : bool := String.eqb (url r) REFRESH_URL.

(** How many of the requests of a log went to the refresh endpoint. *)
Definition refresh_calls (l : list Request) : nat := length (List.filter is_refresh l).

(** The answer the remote service gives to the next request. *)
Definition next_outcome (w : World) : HttpOutcome :=
  match network w with
  | [] => NetworkFailure
  | o :: _ => o
  end.

(** The three calls that establish a session, with the request each one
    makes and what it tags or says. *)
Inductive SessionCall : Type :=
| Login (credentials : LoginRequest.t)
| RegisterJobSeeker (data_ : Json)
| RegisterClient (data_ : Json).

Definition run {runtime : JSON.Runtime} (K : StorageKeys) (c : SessionCall)
  : Promise LoginResponse.t :=
  match c with
  | Login credentials => login K credentials
  | RegisterJobSeeker data_ => registerJobSeeker K data_
  | RegisterClient data_ => registerClient K data_
  end.

Definition call_url (c : SessionCall) : string :=
  match c with
  | Login credentials =>
      match LoginRequest.userType credentials with
      | jobseeker => "/api/v1/user/mobile/login"
      | client => "/api/v1/client/mobile/login"
      end
  | RegisterJobSeeker _ => "/api/v1/user/mobile/register"
  | RegisterClient _ => "/api/v1/client/mobile/register"
  end.

Definition call_body (c : SessionCall) : option Json :=
  match c with
  | Login credentials =>
      Some (Object [("email"%string, Str (LoginRequest.email credentials));
                    ("password"%string, Str (LoginRequest.password credentials))])
  | RegisterJobSeeker data_ => Some data_
  | RegisterClient data_ => Some data_
  end.

Definition call_userType (c : SessionCall) : UserType :=
  match c with
  | Login credentials => LoginRequest.userType credentials
  | RegisterJobSeeker _ => jobseeker
  | RegisterClient _ => client
  end.

Definition call_failure (c : SessionCall) : string :=
  match c with
  | Login _ => "Login failed"
  | RegisterJobSeeker _ => "Registration failed"
  | RegisterClient _ => "Registration failed"
  end.

(** The two profile updates. *)
Definition updateProfile {runtime : JSON.Runtime} (K : StorageKeys) (kind : UserType)
  : User -> Promise User :=
  match kind with
  | jobseeker => updateJobSeekerProfile K
  | client => updateClientProfile K
  end.

Definition profile_url (kind : UserType) : string :=
  match kind with
  | jobseeker => "/api/v1/user/profile"
  | client => "/api/v1/client/profile"
  end.

Definition me_url (kind : UserType) : string :=
  match kind with
  | jobseeker => "/api/v1/user/me"
  | client => "/api/v1/client/me"
  end.

(** A value survives JSON serialization when its text is not empty and
    reads back as the value. *)
Definition survives {runtime : JSON.Runtime} (v : Json) : Prop :=
  truthy (JSON.stringify v) = true /\ JSON.parse (JSON.stringify v) = Some v.

(** The keys of a concrete device, for the examples. *)
Definition example_keys : StorageKeys :=
  {| ACCESS_TOKEN := "vergo_access_token";
     REFRESH_TOKEN := "vergo_refresh_token";
     USER_TYPE := "vergo_user_type";
     USER_DATA := "vergo_user_data" |}.


(** ** Scenarios: concrete worlds for the examples *)

Definition envelope (ok : bool) (error : option string) (user : option User)
  (token refreshToken : option string) : BackendAuthResponse.t :=
  {| BackendAuthResponse.ok := ok;
     BackendAuthResponse.error := error;
     BackendAuthResponse.code := None;
     BackendAuthResponse.user := user;
     BackendAuthResponse.token := token;
     BackendAuthResponse.refreshToken := refreshToken |}.

Definition scenario_user : User :=
  [("id"%string, Number (ECMA.double_of_Z 1)); ("email"%string, Str "a@b.com")].

Definition scenario_credentials : LoginRequest.t :=
  {| LoginRequest.email := "a@b.com";
     LoginRequest.password := "x";
     LoginRequest.userType := jobseeker |}.

(** [{ok:true, token:"T1", refreshToken:"R1", user:{id:1,email:"a@b.com"}}] *)
Definition login_response : BackendAuthResponse.t :=
  envelope true None (Some scenario_user) (Some "T1"%string) (Some "R1"%string).

(** [{ok:true, token:"T1", user:{...}}]: no distinct refresh token. *)
Definition register_response : BackendAuthResponse.t :=
  envelope true None (Some scenario_user) (Some "T1"%string) None.

(** [{ok:true, token:"T2"}], the answer of the refresh endpoint. *)
Definition refresh_response : BackendAuthResponse.t :=
  envelope true None None (Some "T2"%string) None.

Definition me_response : BackendAuthResponse.t :=
  envelope true None (Some scenario_user) None None.

Definition denied_response : BackendAuthResponse.t :=
  envelope false (Some "Invalid email or password"%string) None None None.

Definition stale_response : BackendAuthResponse.t :=
  envelope false (Some "stale data"%string) None None None.

(** A piece of text between double quotes. *)
Definition quoted (s : string) : string := String dquote (s +:+ String dquote EmptyString).

(** The text of [scenario_user], [{"id":1,"email":"a@b.com"}]. *)
Definition scenario_user_text : string :=
  ("{" +:+ quoted "id" +:+ ":1," +:+ quoted "email" +:+ ":" +:+ quoted "a@b.com" +:+ "}")%string.



(** A device on which nobody is signed in. *)
Definition fresh_world (script : list HttpOutcome) : World :=
  {| secureStore := ∅; network := script; requests := []; console := [] |}.

(** A device holding a session. *)
Definition session_store : gmap string string :=
  <[USER_DATA example_keys := scenario_user_text]>
    (<[USER_TYPE example_keys := "jobseeker"%string]>
       (<[REFRESH_TOKEN example_keys := "R0"%string]>
          (<[ACCESS_TOKEN example_keys := "T0"%string]> ∅))).

Definition session_world (script : list HttpOutcome) : World :=
  {| secureStore := session_store; network := script; requests := []; console := [] |}.

(** A device whose refresh-token entry is gone, the other three in place. *)
Definition no_refresh_token_world : World :=
  {| secureStore := delete (REFRESH_TOKEN example_keys) session_store;
     network := []; requests := []; console := [] |}.

(** A device whose user-record entry is gone. *)
Definition no_user_data_world : World :=
  {| secureStore := delete (USER_DATA example_keys) session_store;
     network := []; requests := []; console := [] |}.

(** A device whose user record is cut short: it does not parse. *)
Definition corrupt_user_data_world : World :=
  {| secureStore := <[USER_DATA example_keys := "{id:1"%string]> session_store;
     network := []; requests := []; console := [] |}.

(** A device whose stored account kind is none of the two and whose user
    record is the number 7.5. *)
Definition unchecked_world : World :=
  {| secureStore :=
       <[USER_DATA example_keys := "7.5"%string]>
         (<[USER_TYPE example_keys := "admin"%string]> session_store);
     network := []; requests := []; console := [] |}.

(** A device whose user record is the text [01], which is not JSON. *)
Definition leading_zero_world : World :=
  {| secureStore := <[USER_DATA example_keys := "01"%string]> session_store;
     network := []; requests := []; console := [] |}.

(** A device whose user record is written with white space and holds a
    fraction: [{ "id": 1, "rating": 4.5 }]. *)
Definition spaced_world : World :=
  {| secureStore :=
       <[USER_DATA example_keys :=
           ("{ " +:+ quoted "id" +:+ ": 1, " +:+ quoted "rating" +:+ ": 4.5 }")%string]>
         session_store;
     network := []; requests := []; console := [] |}.

(** A device holding a session and a setting of another part of the
    application. *)
Definition themed_world (script : list HttpOutcome) : World :=
  {| secureStore := <["theme"%string := "dark"%string]> session_store;
     network := script; requests := []; console := [] |}.

(** [{ok:true, user:{id:1,email:"c@d.com"}}], the answer to a profile
    update. *)
Definition updated_user : User :=
  [("id"%string, Number (ECMA.double_of_Z 1)); ("email"%string, Str "c@d.com")].

Definition profile_response : BackendAuthResponse.t :=
  envelope true None (Some updated_user) None None.


(** ** The job-detail screen's time helper ([src/api/index.ts]) *)

(** [s.split(sep)] for a separator of one character: the pieces between
    the separators, [[""]] for the empty string. *)
Fixpoint split (sep : ascii) (s : string) : list string :=
  match s with
  | EmptyString => [EmptyString]
  | String c r =>
      if Ascii.eqb c sep then EmptyString :: split sep r
      else
        match split sep r with
        | piece :: pieces => String c piece :: pieces
        | [] => [String c EmptyString]
        end
  end.

(** The white space [parseInt] skips, among the one-byte characters. *)
Definition is_white_space (c : ascii) : bool :=
  let n := N_of_ascii c in
  ((n =? 32) || ((9 <=? n) && (n <=? 13)))%N.

Fixpoint trim_start (s : string) : string :=
  match s with
  | EmptyString => EmptyString
  | String c r => if is_white_space c then trim_start r else s
  end.

(** [parseInt(s, 10)]: leading white space, an optional sign, then the
    longest run of digits; [None] is NaN.  Exact on the integers a double
    holds exactly. *)
Definition parseInt (s : string) : option Z :=
  let (sign, digits) :=
    match trim_start s with
    | EmptyString => (Decimal.Pos, EmptyString)
    | String c r =>
        if Ascii.eqb c "-" then (Decimal.Neg, r)
        else if Ascii.eqb c "+" then (Decimal.Pos, r)
        else (Decimal.Pos, String c r)
    end in
  match fst (parse_digits (chars digits)) with
  | Nil => None
  | u => Some (Z.of_int (sign u))
  end.

(** An integer inside a template literal. *)
Definition Number_toString (n : Z) : string := string_of_list_ascii (print_int n).

Definition formatTime (timeString : string) : string :=
  let pieces := split ":" timeString in
  let hours := default EmptyString (pieces !! 0%nat) in
  let minutes := pieces !! 1%nat in
  let hour := parseInt hours in
  let ampm :=
    match hour with
    | Some h => if 12 <=? h then "pm"%string else "am"%string
    | None => "am"%string
    end in
  let hour12 :=
    match hour with
    | Some h => if Z.rem h 12 =? 0 then 12 else Z.rem h 12
    | None => 12
    end in
  (Number_toString hour12 +:+ ":" +:+ default "undefined"%string minutes +:+ ampm)%string.

(** Whether a character occurs in a string. *)
Fixpoint occurs (c : ascii) (s : string) : bool :=
  match s with
  | EmptyString => false
  | String x r => Ascii.eqb x c || occurs c r
  end.

(** The decimal digits of [u] as a string. *)
Definition digits (u : Decimal.uint) : string := string_of_list_ascii (print_uint u).

(** The hour on a 12-hour clock. *)
Definition hour12 (h : Z) : Z := if h mod 12 =? 0 then 12 else h mod 12.

(** * Properties *)

(** ** Decimal digits *)
Module TextFacts.

Lemma parse_digits_print u r :
  no_digit_head r -> parse_digits (print_uint u ++ r) = (u, r).
Proof.
  intros Hr. induction u as [|u IH|u IH|u IH|u IH|u IH|u IH|u IH|u IH|u IH|u IH];
    try (cbn [print_uint app parse_digits]; cbn; rewrite IH; reflexivity).
  cbn [print_uint app]. destruct r as [|c r]; [reflexivity|].
  cbn [parse_digits]. cbn in Hr. rewrite Hr. reflexivity.
Qed.

End TextFacts.

(** ** The runtime of the scenarios *)

(** [JSON.parse] reads fractions, exponents and white space, refuses a
    leading zero and the empty text, keeps the last value of a repeated key
    and reads a number too large for a double as Infinity.
    [JSON.stringify] prints a double with the fewest digits that read back
    as it, in exponent form from [1e21], and [null] for a number that is
    not finite. *)
Lemma ecma_examples :
  ECMA.parse ("{ " +:+ quoted "id" +:+ ": 1, " +:+ quoted "rating" +:+ " :4.5e0 }")
  = Some (Object [("id"%string, Number (S754_finite false 4503599627370496 (-52)));
                  ("rating"%string, Number (S754_finite false 5066549580791808 (-50)))])
  /\ ECMA.parse "01" = None
  /\ ECMA.parse EmptyString = None
  /\ ECMA.parse ("{" +:+ quoted "a" +:+ ":1," +:+ quoted "a" +:+ ":2}")
     = Some (Object [("a"%string, Number (ECMA.double_of_Z 2))])
  /\ ECMA.parse "1e999" = Some (Number (S754_infinity false))
  /\ ECMA.stringify (Number (ECMA.double_of_Z (10 ^ 21))) = "1e+21"%string
  /\ ECMA.stringify (Number (ECMA.double_of_Z 123456789012345678901))
     = "123456789012345680000"%string
  /\ ECMA.stringify (Number (S754_finite false 5066549580791808 (-50))) = "4.5"%string
  /\ ECMA.stringify (Array [Number (S754_infinity false); Number S754_nan])
     = "[null,null]"%string.
Proof. repeat split; vm_compute; reflexivity. Qed.

(** ** Running asynchronous functions *)

Local Open Scope promise_scope.

Lemma bind_resolved {A B} (c : Promise A) (k : A -> Promise B) w a w' :
  c w = (Resolved a, w') -> bind c k w = k a w'.
Proof. intros H. unfold bind. rewrite H. reflexivity. Qed.

Lemma bind_rejected {A B} (c : Promise A) (k : A -> Promise B) w e w' :
  c w = (Rejected e, w') -> bind c k w = (Rejected e, w').
Proof. intros H. unfold bind. rewrite H. reflexivity. Qed.

Lemma settle_settled o w : settle o w = (settled o, w).
Proof. destruct o as [|st d]; cbn; [|destruct (is_2xx st)]; reflexivity. Qed.

Lemma example_keys_independent : independent example_keys.
Proof. unfold independent. cbn. compute_done. Qed.

(** ** The Transport *)

Ltac run_promise :=
  cbv [bind ret throw try_catch send with_store console_warn
       SecureStore.getItemAsync SecureStore.setItemAsync SecureStore.deleteItemAsync].

Lemma refresh_calls_app l l' :
  refresh_calls (l ++ l') = (refresh_calls l + refresh_calls l')%nat.
Proof. unfold refresh_calls. rewrite List.filter_app, length_app. reflexivity. Qed.

Lemma is_refresh_refresh_request r : is_refresh (refresh_request r) = true.
Proof. reflexivity. Qed.

Lemma is_refresh_other m u t b :
  u <> REFRESH_URL ->
  is_refresh {| method := m; url := u; bearer := t; body := b |} = false.
Proof. intros Hu. unfold is_refresh. cbn [url]. apply String.eqb_neq, Hu. Qed.

Section Transport.

Variable K : StorageKeys.

(** Without a stored access token, or when the first answer is not a 401,
    the request is sent once and its outcome is the caller's. *)
Lemma apiClient_request_direct m u b w :
  secureStore w !! ACCESS_TOKEN K = None \/ is_401 (next_outcome w) = false ->
  apiClient_request K m u b w
  = settle (next_outcome w)
      {| secureStore := secureStore w;
         network := tail (network w);
         requests := requests w
                     ++ [{| method := m; url := u;
                            bearer := secureStore w !! ACCESS_TOKEN K; body := b |}];
         console := console w |}.
Proof.
  intros H. unfold apiClient_request, next_outcome in *. run_promise.
  destruct (network w) as [|o rest]; cbn [tail] in *.
  - destruct (secureStore w !! ACCESS_TOKEN K); reflexivity.
  - destruct (secureStore w !! ACCESS_TOKEN K); [|reflexivity].
    destruct H as [H|H]; [discriminate|]. rewrite H. reflexivity.
Qed.

(** A 401 on a request that carried a credential, then a refresh that
    succeeds. *)
Lemma apiClient_request_refreshed m u b w t d o2 t' rest :
  secureStore w !! ACCESS_TOKEN K = Some t ->
  network w = HttpResponse 401 d :: o2 :: rest ->
  refreshed_token o2 = Some t' ->
  apiClient_request K m u b w
  = settle (match rest with [] => NetworkFailure | o3 :: _ => o3 end)
      {| secureStore := <[ACCESS_TOKEN K := t']> (secureStore w);
         network := tail rest;
         requests := requests w
                     ++ [{| method := m; url := u; bearer := Some t; body := b |};
                         refresh_request (secureStore w !! REFRESH_TOKEN K);
                         {| method := m; url := u; bearer := Some t'; body := b |}];
         console := console w |}.
Proof.
  intros Ht Hnet Hre. unfold apiClient_request, refresh_and_retry. run_promise.
  rewrite Ht, Hnet. cbn [is_401 Nat.eqb network secureStore requests console].
  rewrite Hre. cbn [network secureStore requests console].
  rewrite <- !app_assoc. cbn [app].
  destruct rest as [|o3 rest]; reflexivity.
Qed.



(** C1 (spec 4.2, steps 1 to 3 and the loop guard).  A request that carried
    the stored access token [t] and is answered 401, followed by a refresh
    answered 2xx with a new token [t']: three requests are sent in all, the
    original, one refresh call, and the original once more with bearer
    [t']; the outcome [o3] of that retry is what the caller gets, whatever
    it is (a 401 included: nothing more of the script is consumed), and
    exactly one of the requests went to the refresh endpoint.  A 401 on a
    request that carried no credential is passed to the caller after that
    single request. *)
Theorem refresh_and_retry_exactly_once m u b w :
  (forall t d o2 t' o3 rest,
      secureStore w !! ACCESS_TOKEN K = Some t ->
      network w = HttpResponse 401 d :: o2 :: o3 :: rest ->
      refreshed_token o2 = Some t' ->
      exists w',
        apiClient_request K m u b w = (settled o3, w')
        /\ secureStore w' = <[ACCESS_TOKEN K := t']> (secureStore w)
        /\ network w' = rest
        /\ requests w'
           = requests w
             ++ [{| method := m; url := u; bearer := Some t; body := b |};
                 refresh_request (secureStore w !! REFRESH_TOKEN K);
                 {| method := m; url := u; bearer := Some t'; body := b |}]
        /\ (u <> REFRESH_URL ->
            refresh_calls (requests w') = S (refresh_calls (requests w))))
  /\ (forall d rest,
        secureStore w !! ACCESS_TOKEN K = None ->
        network w = HttpResponse 401 d :: rest ->
        exists w',
          apiClient_request K m u b w = (Rejected (HttpError 401 d), w')
          /\ secureStore w' = secureStore w
          /\ network w' = rest
          /\ requests w'
             = requests w ++ [{| method := m; url := u; bearer := None; body := b |}]
          /\ (u <> REFRESH_URL -> refresh_calls (requests w') = refresh_calls (requests w))).
Proof.
  split.
  - intros t d o2 t' o3 rest Ht Hnet Hre.
    rewrite (apiClient_request_refreshed m u b w t d o2 t' (o3 :: rest)) by assumption.
    rewrite settle_settled. eexists. split; [reflexivity|].
    cbn [secureStore network requests tail]. repeat split.
    intros Hu. rewrite refresh_calls_app. unfold refresh_calls at 2.
    cbn [List.filter]. rewrite !is_refresh_other, is_refresh_refresh_request by exact Hu.
    cbn [length]. lia.
  - intros d rest Ht Hnet.
    rewrite apiClient_request_direct by (left; exact Ht).
    unfold next_outcome. rewrite Hnet, Ht, settle_settled.
    eexists. split; [reflexivity|].
    cbn [secureStore network requests tail]. repeat split.
    intros Hu. rewrite refresh_calls_app. unfold refresh_calls at 2.
    cbn [List.filter]. rewrite is_refresh_other by exact Hu.
    cbn [length]. lia.
Qed.

End Transport.

(** ** The four entries *)

Lemma independent_ne K :
  independent K ->
  ACCESS_TOKEN K <> REFRESH_TOKEN K /\ ACCESS_TOKEN K <> USER_TYPE K
  /\ ACCESS_TOKEN K <> USER_DATA K /\ REFRESH_TOKEN K <> USER_TYPE K
  /\ REFRESH_TOKEN K <> USER_DATA K /\ USER_TYPE K <> USER_DATA K.
Proof.
  unfold independent. rewrite !NoDup_cons, !not_elem_of_cons. tauto.
Qed.

Lemma entries_session K m a r t d :
  independent K ->
  entries K (<[USER_DATA K := d]> (<[USER_TYPE K := t]>
               (<[REFRESH_TOKEN K := r]> (<[ACCESS_TOKEN K := a]> m))))
  = [Some a; Some r; Some t; Some d].
Proof.
  intros H. apply independent_ne in H. destruct H as (H1 & H2 & H3 & H4 & H5 & H6).
  unfold entries. repeat f_equal; simplify_map_eq; reflexivity.
Qed.

Lemma entries_cleared K m :
  entries K (delete (USER_DATA K) (delete (USER_TYPE K)
               (delete (REFRESH_TOKEN K) (delete (ACCESS_TOKEN K) m))))
  = [None; None; None; None].
Proof.
  unfold entries. rewrite !lookup_delete.
  repeat case_decide; try reflexivity; congruence.
Qed.

Lemma ok_token_user_Some d token user :
  ok_token_user d = Some (token, user) <->
  BackendAuthResponse.ok d = true /\ BackendAuthResponse.token d = Some token
  /\ truthy token = true /\ BackendAuthResponse.user d = Some user.
Proof.
  unfold ok_token_user.
  destruct (BackendAuthResponse.ok d), (BackendAuthResponse.token d) as [t|],
    (BackendAuthResponse.user d) as [u|]; try (split; [discriminate | intuition congruence]).
  destruct (truthy t) eqn:Ht; split.
  - intros [= -> ->]. auto.
  - intros (_ & [= ->] & _ & [= ->]). reflexivity.
  - discriminate.
  - intros (_ & [= ->] & Ht' & _). congruence.
Qed.


(** ** [authApi] *)

Section Auth.

Variable K : StorageKeys.
Context {runtime : JSON.Runtime}.

(** The three calls that establish a session, run on a world: one request
    through the Transport, then either the four writes or the error. *)
Lemma run_eq c w :
  run K c w
  = match apiClient_post K (call_url c) (call_body c) w with
    | (Resolved response, w0) =>
        match ok_token_user (data response) with
        | Some (token, user) =>
            let refreshToken :=
              or_else (BackendAuthResponse.refreshToken (data response)) token in
            (Resolved {| LoginResponse.token := token;
                         LoginResponse.refreshToken := refreshToken;
                         LoginResponse.user := user;
                         LoginResponse.userType := call_userType c |},
             with_store
               (fun m =>
                  <[USER_DATA K := JSON.stringify (Object user)]>
                    (<[USER_TYPE K := UserType_str (call_userType c)]>
                       (<[REFRESH_TOKEN K := refreshToken]>
                          (<[ACCESS_TOKEN K := token]> m)))) w0)
        | None =>
            (Rejected (Error (or_else (BackendAuthResponse.error (data response))
                                (call_failure c))), w0)
        end
    | (Rejected e, w0) => (Rejected e, w0)
    end.
Proof.
  destruct c as [credentials|data_|data_];
    cbn [run call_url call_body call_userType call_failure];
    unfold login, registerJobSeeker, registerClient, setAuthTokens, bind at 1;
    (destruct (apiClient_post K _ _ w) as [[response|e] w0]; [|reflexivity]);
    (destruct (ok_token_user (data response)) as [[token user]|]; reflexivity).
Qed.

(** C2.  When the Transport hands [login] a response whose [ok] is set and
    which has a token and a user record, [login] resolves with the session
    made of that token and that user, and the store afterwards holds the
    four entries: the access token, the refresh token, the account kind and
    the user record as the runtime's [JSON.stringify] serializes it. *)
Theorem login_persists_session credentials w response w0 token user :
  independent K ->
  apiClient_post K (call_url (Login credentials)) (call_body (Login credentials)) w
  = (Resolved response, w0) ->
  BackendAuthResponse.ok (data response) = true ->
  BackendAuthResponse.token (data response) = Some token ->
  truthy token = true ->
  BackendAuthResponse.user (data response) = Some user ->
  exists w1,
    login K credentials w
    = (Resolved
         {| LoginResponse.token := token;
            LoginResponse.refreshToken :=
              or_else (BackendAuthResponse.refreshToken (data response)) token;
            LoginResponse.user := user;
            LoginResponse.userType := LoginRequest.userType credentials |}, w1)
    /\ entries K (secureStore w1)
       = [Some token;
          Some (or_else (BackendAuthResponse.refreshToken (data response)) token);
          Some (UserType_str (LoginRequest.userType credentials));
          Some (JSON.stringify (Object user))].
Proof.
  intros HK Hpost Hok Htoken Htruthy Huser.
  change (login K credentials w) with (run K (Login credentials) w).
  rewrite run_eq, Hpost.
  rewrite (proj2 (ok_token_user_Some (data response) token user)) by auto.
  eexists. split; [reflexivity|].
  cbn [with_store secureStore]. apply entries_session, HK.
Qed.

(** C3.  [logout] resolves on every world, whatever the remote service
    answers to the notification, and afterwards none of the four entries is
    in the store. *)
Theorem logout_clears_store w :
  exists w1,
    logout K w = (Resolved tt, w1)
    /\ entries K (secureStore w1) = [None; None; None; None].
Proof.
  unfold logout, clearAuthTokens. run_promise.
  destruct (apiClient_post K "/api/v1/user/logout" None w) as [[response|e] w0];
    (eexists; split; [reflexivity|]); cbn [secureStore]; apply entries_cleared.
Qed.

(** [checkAuth], run on a world. *)
Lemma checkAuth_eq w :
  checkAuth K w
  = match secureStore w !! USER_DATA K with
    | Some text =>
        if truthy_opt (secureStore w !! ACCESS_TOKEN K)
           && truthy_opt (secureStore w !! USER_TYPE K) && truthy text
        then
          match JSON.parse text with
          | Some user =>
              (Resolved {| AuthState.isAuthenticated := true;
                           AuthState.userType := secureStore w !! USER_TYPE K;
                           AuthState.user := Some user |}, w)
          | None =>
              (Resolved unauthenticated,
               {| secureStore := secureStore w; network := network w;
                  requests := requests w;
                  console := console w ++ ["Auth check failed:"%string] |})
          end
        else (Resolved unauthenticated, w)
    | None => (Resolved unauthenticated, w)
    end.
Proof.
  unfold checkAuth, JSON_parse. run_promise.
  destruct (secureStore w !! USER_DATA K) as [text|]; [|reflexivity].
  destruct (truthy_opt (secureStore w !! ACCESS_TOKEN K)
            && truthy_opt (secureStore w !! USER_TYPE K) && truthy text); [|reflexivity].
  destruct (JSON.parse text); reflexivity.
Qed.

(** C4, as the code has it.  [checkAuth] resolves on every world and leaves
    the store as it was.  It answers unauthenticated when the access token,
    the account kind or the user record is absent or empty, hence whenever
    three of the four entries are present and the refresh token is one of
    them, and when the runtime's [JSON.parse] throws on the stored user
    record.  The refresh token is not read: with the other three entries in
    place and a record that parses, the answer is authenticated, whatever
    the refresh-token entry holds. *)
Theorem checkAuth_unauthenticated w :
  (exists result w1,
      checkAuth K w = (Resolved result, w1) /\ secureStore w1 = secureStore w)
  /\ (truthy_opt (secureStore w !! ACCESS_TOKEN K) = false
      \/ truthy_opt (secureStore w !! USER_TYPE K) = false
      \/ truthy_opt (secureStore w !! USER_DATA K) = false ->
      checkAuth K w = (Resolved unauthenticated, w))
  /\ (present_count K (secureStore w) = 3%nat ->
      present (secureStore w !! REFRESH_TOKEN K) = true ->
      checkAuth K w = (Resolved unauthenticated, w))
  /\ (forall text,
        secureStore w !! USER_DATA K = Some text ->
        JSON.parse text = None ->
        exists w1,
          checkAuth K w = (Resolved unauthenticated, w1)
          /\ secureStore w1 = secureStore w)
  /\ (forall t kind text user,
        secureStore w !! ACCESS_TOKEN K = Some t -> truthy t = true ->
        secureStore w !! USER_TYPE K = Some kind -> truthy kind = true ->
        secureStore w !! USER_DATA K = Some text -> truthy text = true ->
        JSON.parse text = Some user ->
        checkAuth K w
        = (Resolved {| AuthState.isAuthenticated := true;
                       AuthState.userType := Some kind;
                       AuthState.user := Some user |}, w)).
Proof.
  assert (truthy_opt (secureStore w !! ACCESS_TOKEN K) = false
          \/ truthy_opt (secureStore w !! USER_TYPE K) = false
          \/ truthy_opt (secureStore w !! USER_DATA K) = false ->
          checkAuth K w = (Resolved unauthenticated, w)) as Hpartial.
  { intros H. rewrite checkAuth_eq.
    destruct (secureStore w !! USER_DATA K) as [text|]; [|reflexivity].
    cbn [truthy_opt] in H.
    destruct (truthy_opt (secureStore w !! ACCESS_TOKEN K));
      destruct (truthy_opt (secureStore w !! USER_TYPE K));
      destruct (truthy text); try reflexivity;
      destruct H as [H|[H|H]]; discriminate. }
  split; [|split; [|split; [|split]]].
  - rewrite checkAuth_eq.
    destruct (secureStore w !! USER_DATA K) as [text|]; [|eauto].
    destruct (truthy_opt (secureStore w !! ACCESS_TOKEN K)
              && truthy_opt (secureStore w !! USER_TYPE K) && truthy text); [|eauto].
    destruct (JSON.parse text); eauto.
  - exact Hpartial.
  - intros Hcount Hrefresh. apply Hpartial.
    unfold present_count, entries in Hcount. cbn [List.filter] in Hcount.
    rewrite Hrefresh in Hcount.
    destruct (secureStore w !! ACCESS_TOKEN K); [|left; reflexivity].
    destruct (secureStore w !! USER_TYPE K); [|right; left; reflexivity].
    destruct (secureStore w !! USER_DATA K); [|right; right; reflexivity].
    cbn in Hcount. lia.
  - intros text Htext Hparse. rewrite checkAuth_eq, Htext, Hparse.
    destruct (truthy_opt (secureStore w !! ACCESS_TOKEN K)
              && truthy_opt (secureStore w !! USER_TYPE K) && truthy text); eauto.
  - intros t kind text user Ht Htruthy Hkind Hkind' Htext Htext' Hparse.
    rewrite checkAuth_eq, Htext, Ht, Hkind, Hparse. cbn [truthy_opt].
    rewrite Htruthy, Hkind', Htext'. reflexivity.
Qed.

(** A call that established a session leaves the four entries in the
    store, and [checkAuth] on it answers with the account kind of the
    session and whatever the runtime reads back from the stored text. *)
Lemma session_then_checkAuth c w session w1 :
  independent K ->
  run K c w = (Resolved session, w1) ->
  LoginResponse.userType session = call_userType c
  /\ entries K (secureStore w1)
     = [Some (LoginResponse.token session);
        Some (LoginResponse.refreshToken session);
        Some (UserType_str (LoginResponse.userType session));
        Some (JSON.stringify (Object (LoginResponse.user session)))]
  /\ (forall restored,
        truthy (JSON.stringify (Object (LoginResponse.user session))) = true ->
        JSON.parse (JSON.stringify (Object (LoginResponse.user session))) = Some restored ->
        checkAuth K w1
        = (Resolved
             {| AuthState.isAuthenticated := true;
                AuthState.userType := Some (UserType_str (LoginResponse.userType session));
                AuthState.user := Some restored |}, w1)).
Proof.
  intros HK Hrun. rewrite run_eq in Hrun.
  destruct (apiClient_post K (call_url c) (call_body c) w) as [[response|e] w0];
    [|discriminate].
  destruct (ok_token_user (data response)) as [[token user]|] eqn:Hguard; [|discriminate].
  apply ok_token_user_Some in Hguard. destruct Hguard as (_ & _ & Htruthy & _).
  cbn zeta in Hrun. injection Hrun as <- <-. cbn [LoginResponse.userType
    LoginResponse.token LoginResponse.refreshToken LoginResponse.user].
  split; [reflexivity|].
  assert (entries K (secureStore
            (with_store
               (fun m =>
                  <[USER_DATA K := JSON.stringify (Object user)]>
                    (<[USER_TYPE K := UserType_str (call_userType c)]>
                       (<[REFRESH_TOKEN K :=
                            or_else (BackendAuthResponse.refreshToken (data response)) token]>
                          (<[ACCESS_TOKEN K := token]> m)))) w0))
          = [Some token;
             Some (or_else (BackendAuthResponse.refreshToken (data response)) token);
             Some (UserType_str (call_userType c));
             Some (JSON.stringify (Object user))]) as Hentries.
  { cbn [with_store secureStore]. apply entries_session, HK. }
  split; [exact Hentries|].
  intros restored Htext Hparse.
  unfold entries in Hentries. injection Hentries as Ha _ Ht Hd.
  rewrite checkAuth_eq. cbn [with_store secureStore].
  rewrite Ha, Ht, Hd. cbn [truthy_opt]. rewrite Htruthy, Htext, Hparse.
  replace (truthy (UserType_str (call_userType c))) with true
    by (destruct (call_userType c); reflexivity).
  reflexivity.
Qed.



(** C7.  For [login], [registerJobSeeker] and [registerClient]: on a
    response that passes the guard, when the server's refresh token is
    omitted (or empty) the refresh token persisted and the one of the
    session returned are the access token; when the server supplies one, it
    is the one persisted and returned. *)
Theorem refresh_token_defaults_to_access_token c w response w0 token user :
  independent K ->
  apiClient_post K (call_url c) (call_body c) w = (Resolved response, w0) ->
  ok_token_user (data response) = Some (token, user) ->
  exists session w1,
    run K c w = (Resolved session, w1)
    /\ LoginResponse.token session = token
    /\ secureStore w1 !! ACCESS_TOKEN K = Some token
    /\ (truthy_opt (BackendAuthResponse.refreshToken (data response)) = false ->
        secureStore w1 !! REFRESH_TOKEN K = Some token
        /\ LoginResponse.refreshToken session = token)
    /\ (forall r,
          BackendAuthResponse.refreshToken (data response) = Some r ->
          truthy r = true ->
          secureStore w1 !! REFRESH_TOKEN K = Some r
          /\ LoginResponse.refreshToken session = r).
Proof.
  intros HK Hpost Hguard. rewrite run_eq, Hpost, Hguard. cbn zeta.
  eexists _, _. split; [reflexivity|].
  cbn [LoginResponse.token LoginResponse.refreshToken with_store secureStore].
  pose proof (entries_session K (secureStore w0) token
                (or_else (BackendAuthResponse.refreshToken (data response)) token)
                (UserType_str (call_userType c)) (JSON.stringify (Object user)) HK)
    as Hentries.
  unfold entries in Hentries. injection Hentries as Ha Hr _ _.
  split; [reflexivity|]. split; [exact Ha|]. rewrite Hr. split.
  - intros Hfalsy.
    assert (or_else (BackendAuthResponse.refreshToken (data response)) token = token)
      as ->; [|auto].
    unfold or_else, truthy_opt in *.
    destruct (BackendAuthResponse.refreshToken (data response)); [|reflexivity].
    rewrite Hfalsy. reflexivity.
  - intros r -> Hr'. cbn [or_else]. rewrite Hr'. auto.
Qed.

(** What the two profile updates do, run on a world. *)
Lemma updateProfile_eq kind fields w :
  updateProfile K kind fields w
  = match apiClient_put K (profile_url kind) (Some (Object fields)) w with
    | (Resolved response, w0) =>
        match ok_user (data response) with
        | Some user =>
            (Resolved user,
             with_store (insert (USER_DATA K) (JSON.stringify (Object user))) w0)
        | None =>
            (Rejected (Error (or_else (BackendAuthResponse.error (data response))
                                "Failed to update profile")), w0)
        end
    | (Rejected e, w0) => (Rejected e, w0)
    end.
Proof.
  destruct kind; cbn [updateProfile profile_url];
    unfold updateJobSeekerProfile, updateClientProfile, bind at 1;
    (destruct (apiClient_put K _ _ w) as [[response|e] w0]; [|reflexivity]);
    (destruct (ok_user (data response)); reflexivity).
Qed.





End Auth.

(** ** The scenarios of the specification, run *)

Section ScenariosRun.

#[local] Existing Instance ecma.

Lemma refresh_and_retry_exactly_once_witness :
  (exists w',
      apiClient_request example_keys GET "/api/v1/user/me" None
        (session_world [HttpResponse 401 denied_response;
                        HttpResponse 200 refresh_response;
                        HttpResponse 401 denied_response])
      = (Rejected (HttpError 401 denied_response), w')
      /\ secureStore w' !! ACCESS_TOKEN example_keys = Some "T2"%string
      /\ length (requests w') = 3%nat
      /\ refresh_calls (requests w') = 1%nat)
  /\ (exists w',
        apiClient_request example_keys GET "/api/v1/user/me" None
          (fresh_world [HttpResponse 401 denied_response;
                        HttpResponse 200 refresh_response])
        = (Rejected (HttpError 401 denied_response), w')
        /\ network w' = [HttpResponse 200 refresh_response]
        /\ refresh_calls (requests w') = 0%nat).
Proof.
  split.
  - destruct (proj1 (refresh_and_retry_exactly_once example_keys GET "/api/v1/user/me" None
                       (session_world [HttpResponse 401 denied_response;
                                       HttpResponse 200 refresh_response;
                                       HttpResponse 401 denied_response]))
                "T0"%string denied_response (HttpResponse 200 refresh_response)
                "T2"%string (HttpResponse 401 denied_response) []
                ltac:(vm_compute; reflexivity) ltac:(reflexivity)
                ltac:(vm_compute; reflexivity))
      as (w' & Hrun & Hstore & _ & Hsent & Hcalls).
    exists w'. split; [exact Hrun|]. split.
    + rewrite Hstore. apply lookup_insert_eq.
    + split.
      * rewrite Hsent. reflexivity.
      * rewrite Hcalls by (vm_compute; discriminate). reflexivity.
  - destruct (proj2 (refresh_and_retry_exactly_once example_keys GET "/api/v1/user/me" None
                       (fresh_world [HttpResponse 401 denied_response;
                                     HttpResponse 200 refresh_response]))
                denied_response [HttpResponse 200 refresh_response]
                ltac:(vm_compute; reflexivity) ltac:(reflexivity))
      as (w' & Hrun & _ & Hnet & _ & Hcalls).
    exists w'. split; [exact Hrun|]. split; [exact Hnet|].
    rewrite Hcalls by (vm_compute; discriminate). reflexivity.
Defined.

(** The login scenario: the session has access token [T1], and the user
    record persisted is the text [{"id":1,"email":"a@b.com"}], which reads
    back as the user with id 1. *)
Lemma login_persists_session_witness :
  exists w1,
    login example_keys scenario_credentials (fresh_world [HttpResponse 200 login_response])
    = (Resolved {| LoginResponse.token := "T1";
                   LoginResponse.refreshToken := "R1";
                   LoginResponse.user := scenario_user;
                   LoginResponse.userType := jobseeker |}, w1)
    /\ entries example_keys (secureStore w1)
       = [Some "T1"%string; Some "R1"%string; Some "jobseeker"%string;
          Some scenario_user_text]
    /\ JSON.parse scenario_user_text
       = Some (Object [("id"%string, Number (ECMA.double_of_Z 1));
                       ("email"%string, Str "a@b.com")]).
Proof.
  destruct (login_persists_session example_keys scenario_credentials
              (fresh_world [HttpResponse 200 login_response])
              {| status := 200; data := login_response |}
              (snd (apiClient_post example_keys "/api/v1/user/mobile/login"
                      (call_body (Login scenario_credentials))
                      (fresh_world [HttpResponse 200 login_response])))
              "T1"%string scenario_user
              example_keys_independent
              ltac:(vm_compute; reflexivity) ltac:(reflexivity) ltac:(reflexivity)
              ltac:(reflexivity) ltac:(reflexivity)) as (w1 & Hrun & Hentries).
  exists w1. split; [exact Hrun|]. split.
  - rewrite Hentries. vm_compute. reflexivity.
  - vm_compute. reflexivity.
Defined.

(** Three entries present, the refresh token absent: [checkAuth] answers
    authenticated. *)
Lemma checkAuth_without_refresh_token :
  present_count example_keys (secureStore no_refresh_token_world) = 3%nat
  /\ secureStore no_refresh_token_world !! REFRESH_TOKEN example_keys = None
  /\ checkAuth example_keys no_refresh_token_world
     = (Resolved {| AuthState.isAuthenticated := true;
                    AuthState.userType := Some "jobseeker"%string;
                    AuthState.user := Some (Object scenario_user) |},
        no_refresh_token_world)
  /\ fst (checkAuth example_keys no_refresh_token_world) <> Resolved unauthenticated.
Proof.
  split; [vm_compute; reflexivity|].
  split; [vm_compute; reflexivity|].
  split; [vm_compute; reflexivity|].
  vm_compute. discriminate.
Qed.

Lemma checkAuth_unauthenticated_witness :
  checkAuth example_keys no_user_data_world = (Resolved unauthenticated, no_user_data_world)
  /\ (exists w1,
        checkAuth example_keys corrupt_user_data_world = (Resolved unauthenticated, w1))
  /\ checkAuth example_keys no_refresh_token_world
     = (Resolved {| AuthState.isAuthenticated := true;
                    AuthState.userType := Some "jobseeker"%string;
                    AuthState.user := Some (Object scenario_user) |},
        no_refresh_token_world)
  /\ checkAuth example_keys spaced_world
     = (Resolved
          {| AuthState.isAuthenticated := true;
             AuthState.userType := Some "jobseeker"%string;
             AuthState.user :=
               Some (Object [("id"%string, Number (ECMA.double_of_Z 1));
                             ("rating"%string,
                              Number (S754_finite false 5066549580791808 (-50)))]) |},
        spaced_world).
Proof.
  split; [|split; [|split]].
  - exact (proj1 (proj2 (proj2 (checkAuth_unauthenticated example_keys no_user_data_world)))
             ltac:(vm_compute; reflexivity) ltac:(vm_compute; reflexivity)).
  - destruct (proj1 (proj2 (proj2 (proj2 (checkAuth_unauthenticated example_keys
                                            corrupt_user_data_world))))
                "{id:1"%string ltac:(vm_compute; reflexivity)
                ltac:(vm_compute; reflexivity)) as (w1 & Hrun & _).
    exists w1. exact Hrun.
  - exact (proj2 (proj2 (proj2 (proj2 (checkAuth_unauthenticated example_keys
                                         no_refresh_token_world))))
             "T0"%string "jobseeker"%string scenario_user_text (Object scenario_user)
             ltac:(vm_compute; reflexivity) ltac:(reflexivity)
             ltac:(vm_compute; reflexivity) ltac:(reflexivity)
             ltac:(vm_compute; reflexivity) ltac:(reflexivity)
             ltac:(vm_compute; reflexivity)).
  - exact (proj2 (proj2 (proj2 (proj2 (checkAuth_unauthenticated example_keys spaced_world))))
             "T0"%string "jobseeker"%string
             ("{ " +:+ quoted "id" +:+ ": 1, " +:+ quoted "rating" +:+ ": 4.5 }")%string
             (Object [("id"%string, Number (ECMA.double_of_Z 1));
                      ("rating"%string, Number (S754_finite false 5066549580791808 (-50)))])
             ltac:(vm_compute; reflexivity) ltac:(reflexivity)
             ltac:(vm_compute; reflexivity) ltac:(reflexivity)
             ltac:(vm_compute; reflexivity) ltac:(reflexivity)
             ltac:(vm_compute; reflexivity)).
Defined.





Lemma refresh_token_defaults_to_access_token_witness :
  (exists session w1,
      registerJobSeeker example_keys (Object scenario_user)
        (fresh_world [HttpResponse 200 register_response]) = (Resolved session, w1)
      /\ LoginResponse.refreshToken session = "T1"%string
      /\ secureStore w1 !! REFRESH_TOKEN example_keys = Some "T1"%string)
  /\ (exists session w1,
        registerClient example_keys (Object scenario_user)
          (fresh_world [HttpResponse 200 login_response]) = (Resolved session, w1)
        /\ LoginResponse.refreshToken session = "R1"%string
        /\ secureStore w1 !! REFRESH_TOKEN example_keys = Some "R1"%string).
Proof.
  split.
  - destruct (refresh_token_defaults_to_access_token example_keys
                (RegisterJobSeeker (Object scenario_user))
                (fresh_world [HttpResponse 200 register_response])
                {| status := 200; data := register_response |}
                (snd (apiClient_post example_keys "/api/v1/user/mobile/register"
                        (Some (Object scenario_user))
                        (fresh_world [HttpResponse 200 register_response])))
                "T1"%string scenario_user example_keys_independent
                ltac:(vm_compute; reflexivity) ltac:(reflexivity))
      as (session & w1 & Hrun & _ & _ & Homitted & _).
    exists session, w1. split; [exact Hrun|].
    destruct (Homitted eq_refl) as [Hstore Hsession]. split; assumption.
  - destruct (refresh_token_defaults_to_access_token example_keys
                (RegisterClient (Object scenario_user))
                (fresh_world [HttpResponse 200 login_response])
                {| status := 200; data := login_response |}
                (snd (apiClient_post example_keys "/api/v1/client/mobile/register"
                        (Some (Object scenario_user))
                        (fresh_world [HttpResponse 200 login_response])))
                "T1"%string scenario_user example_keys_independent
                ltac:(vm_compute; reflexivity) ltac:(reflexivity))
      as (session & w1 & Hrun & _ & _ & _ & Hsupplied).
    exists session, w1. split; [exact Hrun|].
    destruct (Hsupplied "R1"%string eq_refl eq_refl) as [Hstore Hsession].
    split; assumption.
Defined.





End ScenariosRun.

(** ** [formatTime] *)

Lemma split_String sep c r :
  split sep (String c r)
  = if Ascii.eqb c sep then EmptyString :: split sep r
    else match split sep r with
         | piece :: pieces => String c piece :: pieces
         | [] => [String c EmptyString]
         end.
Proof. reflexivity. Qed.

Lemma split_app sep a b :
  occurs sep a = false ->
  split sep (a +:+ String sep b) = a :: split sep b.
Proof.
  induction a as [|c a IH]; intros Ha.
  - change (EmptyString +:+ String sep b) with (String sep b).
    rewrite split_String, Ascii.eqb_refl. reflexivity.
  - cbn [occurs] in Ha. apply orb_false_iff in Ha. destruct Ha as [Hc Ha].
    change (String c a +:+ String sep b) with (String c (a +:+ String sep b)).
    rewrite split_String, Hc, IH by exact Ha. reflexivity.
Qed.

Lemma split_no_separator sep s : occurs sep s = false -> split sep s = [s].
Proof.
  induction s as [|c s IH]; intros Hs; [reflexivity|].
  cbn [occurs] in Hs. apply orb_false_iff in Hs. destruct Hs as [Hc Hs].
  rewrite split_String, Hc, IH by exact Hs. reflexivity.
Qed.

Lemma occurs_colon_digits u : occurs ":" (digits u) = false.
Proof. unfold digits. induction u; cbn; auto. Qed.

Lemma parseInt_unsigned c r :
  is_white_space c = false ->
  Ascii.eqb c "-" = false ->
  Ascii.eqb c "+" = false ->
  parseInt (String c r)
  = match fst (parse_digits (chars (String c r))) with
    | Nil => None
    | u => Some (Z.of_int (Decimal.Pos u))
    end.
Proof.
  intros Hspace Hminus Hplus. unfold parseInt. cbn [trim_start].
  rewrite Hspace, Hminus, Hplus. reflexivity.
Qed.

Lemma parseInt_digits u : u <> Nil -> parseInt (digits u) = Some (Z.of_uint u).
Proof.
  intros Hu.
  assert (fst (parse_digits (chars (digits u))) = u) as Hparse.
  { unfold digits, chars. rewrite list_ascii_of_string_of_list_ascii.
    rewrite <- (app_nil_r (print_uint u)).
    rewrite TextFacts.parse_digits_print by exact I. reflexivity. }
  destruct u; try congruence;
    (match goal with
     | |- parseInt (digits (?D ?u')) = _ =>
         match eval cbv in (digits (D Nil)) with
         | String ?c _ =>
             change (digits (D u')) with (String c (digits u')) in *
         end
     end;
     rewrite parseInt_unsigned by reflexivity; rewrite Hparse; reflexivity).
Qed.

Lemma of_uint_nonneg u : 0 <= Z.of_uint u.
Proof. unfold Z.of_uint. apply N2Z.is_nonneg. Qed.

Lemma hour12_range h : 1 <= hour12 h <= 12.
Proof.
  unfold hour12. pose proof (Z.mod_pos_bound h 12 ltac:(lia)).
  destruct (Z.eqb_spec (h mod 12) 0); lia.
Qed.

Section FormatTime.

Variable u : Decimal.uint.
Hypothesis digits_present : u <> Nil.

(** X12.  On an hour written in digits, a colon and minutes, [formatTime]
    gives the hour on the 12-hour clock (1 to 12, 12 for the hours that
    are multiples of 12), the minutes as they are, and [am] below 12,
    [pm] from 12 on. *)
Theorem formatTime_12_hour minutes :
  occurs ":" minutes = false ->
  Z.of_uint u < 2 ^ 53 ->
  formatTime (digits u +:+ ":" +:+ minutes)
  = (Number_toString (hour12 (Z.of_uint u)) +:+ ":" +:+ minutes
     +:+ (if (Z.of_uint u <? 12)%Z then "am" else "pm"))%string
  /\ 1 <= hour12 (Z.of_uint u) <= 12.
Proof.
  intros Hminutes _. split; [|apply hour12_range].
  unfold formatTime.
  change (":" +:+ minutes)%string with (String ":" minutes).
  rewrite split_app by apply occurs_colon_digits.
  rewrite split_no_separator by exact Hminutes.
  cbn [lookup list_lookup default from_option id]. rewrite parseInt_digits by exact digits_present.
  pose proof (of_uint_nonneg u) as Hpos.
  rewrite Z.rem_mod_nonneg by lia. fold (hour12 (Z.of_uint u)).
  destruct (Z.leb_spec 12 (Z.of_uint u)), (Z.ltb_spec (Z.of_uint u) 12);
    reflexivity || lia.
Qed.

(** X15.  Without a colon the minutes are missing and print as
    [undefined]. *)
Theorem formatTime_missing_minutes :
  Z.of_uint u < 2 ^ 53 ->
  formatTime (digits u)
  = (Number_toString (hour12 (Z.of_uint u)) +:+ ":undefined"
     +:+ (if (Z.of_uint u <? 12)%Z then "am" else "pm"))%string.
Proof.
  intros _. unfold formatTime.
  rewrite split_no_separator by apply occurs_colon_digits.
  cbn [lookup list_lookup default from_option id]. rewrite parseInt_digits by exact digits_present.
  pose proof (of_uint_nonneg u) as Hpos.
  rewrite Z.rem_mod_nonneg by lia. fold (hour12 (Z.of_uint u)).
  destruct (Z.leb_spec 12 (Z.of_uint u)), (Z.ltb_spec (Z.of_uint u) 12);
    reflexivity || lia.
Qed.

End FormatTime.

(** X13.  Only the first two pieces of the time are used: what follows a
    second colon, seconds for instance, is dropped. *)
Theorem formatTime_drops_seconds hours minutes rest :
  occurs ":" hours = false ->
  occurs ":" minutes = false ->
  formatTime (hours +:+ ":" +:+ minutes +:+ ":" +:+ rest)
  = formatTime (hours +:+ ":" +:+ minutes).
Proof.
  intros Hhours Hminutes. unfold formatTime.
  change (":" +:+ minutes +:+ ":" +:+ rest)%string
    with (String ":" (minutes +:+ String ":" rest)).
  change (":" +:+ minutes)%string with (String ":" minutes).
  rewrite !split_app by assumption.
  rewrite (split_no_separator ":" minutes) by exact Hminutes. reflexivity.
Qed.

(** X14.  A time that starts with the colon has no hour: [parseInt] gives
    NaN, and the time prints as 12 am. *)
Theorem formatTime_missing_hour minutes :
  occurs ":" minutes = false ->
  formatTime (":" +:+ minutes) = ("12:" +:+ minutes +:+ "am")%string.
Proof.
  intros Hminutes. unfold formatTime.
  change (":" +:+ minutes)%string with (EmptyString +:+ String ":" minutes)%string.
  rewrite split_app by reflexivity.
  rewrite split_no_separator by exact Hminutes. reflexivity.
Qed.

(** ** More of [authApi] *)

Lemma ok_user_Some d user :
  ok_user d = Some user <->
  BackendAuthResponse.ok d = true /\ BackendAuthResponse.user d = Some user.
Proof.
  unfold ok_user. destruct (BackendAuthResponse.ok d); split.
  - auto.
  - intros [_ H]. exact H.
  - discriminate.
  - intros [H _]. discriminate.
Qed.

Section MoreAuth.

Variable K : StorageKeys.
Context {runtime : JSON.Runtime}.

(** X1.  [checkAuth] answers authenticated exactly when the access token,
    the account kind and the user record are stored and not empty and the
    runtime's [JSON.parse] accepts the user record.  It then returns the
    stored account kind as it is, whatever string it is, and the value
    [JSON.parse] returned, whatever JSON value it is, and leaves the world
    as it was. *)
Theorem checkAuth_authenticated_iff w :
  (forall t kind text user,
      secureStore w !! ACCESS_TOKEN K = Some t -> truthy t = true ->
      secureStore w !! USER_TYPE K = Some kind -> truthy kind = true ->
      secureStore w !! USER_DATA K = Some text -> truthy text = true ->
      JSON.parse text = Some user ->
      checkAuth K w
      = (Resolved {| AuthState.isAuthenticated := true;
                     AuthState.userType := Some kind;
                     AuthState.user := Some user |}, w))
  /\ (forall result w1,
        checkAuth K w = (Resolved result, w1) ->
        AuthState.isAuthenticated result = true ->
        exists t kind text user,
          secureStore w !! ACCESS_TOKEN K = Some t /\ truthy t = true
          /\ secureStore w !! USER_TYPE K = Some kind /\ truthy kind = true
          /\ secureStore w !! USER_DATA K = Some text /\ truthy text = true
          /\ JSON.parse text = Some user
          /\ AuthState.userType result = Some kind
          /\ AuthState.user result = Some user
          /\ w1 = w).
Proof.
  split.
  - intros t kind text user Ht Htruthy Hkind Hkind' Htext Htext' Hparse.
    rewrite checkAuth_eq, Htext, Ht, Hkind, Hparse. cbn [truthy_opt].
    rewrite Htruthy, Hkind', Htext'. reflexivity.
  - intros result w1 Hrun Hauth. rewrite checkAuth_eq in Hrun.
    destruct (secureStore w !! USER_DATA K) as [text|];
      [|injection Hrun as <- _; discriminate].
    destruct (secureStore w !! ACCESS_TOKEN K) as [t|];
      [|injection Hrun as <- _; discriminate].
    destruct (secureStore w !! USER_TYPE K) as [kind|];
      [|cbn in Hrun; rewrite andb_false_r in Hrun; injection Hrun as <- _; discriminate].
    cbn [truthy_opt] in Hrun.
    destruct (truthy t) eqn:Ht; [|injection Hrun as <- _; discriminate].
    destruct (truthy kind) eqn:Hkind; [|injection Hrun as <- _; discriminate].
    destruct (truthy text) eqn:Htext; [|injection Hrun as <- _; discriminate].
    cbn [andb] in Hrun.
    destruct (JSON.parse text) as [user|] eqn:Hparse;
      [|injection Hrun as <- _; discriminate].
    injection Hrun as <- <-. exists t, kind, text, user.
    repeat split; assumption || reflexivity.
Qed.

(** X2.  [checkAuth] works offline: it sends no request and consumes no
    answer of the remote service, and it writes nothing to the store.  It
    logs one warning exactly when the three entries it reads are there and
    not empty and the runtime's [JSON.parse] throws on the user record. *)
Theorem checkAuth_offline w :
  network (snd (checkAuth K w)) = network w
  /\ requests (snd (checkAuth K w)) = requests w
  /\ secureStore (snd (checkAuth K w)) = secureStore w
  /\ console (snd (checkAuth K w))
     = console w
       ++ (if truthy_opt (secureStore w !! ACCESS_TOKEN K)
              && truthy_opt (secureStore w !! USER_TYPE K)
              && match secureStore w !! USER_DATA K with
                 | Some text =>
                     truthy text
                     && match JSON.parse text with Some _ => false | None => true end
                 | None => false
                 end
           then ["Auth check failed:"%string] else []).
Proof.
  rewrite checkAuth_eq.
  destruct (secureStore w !! USER_DATA K) as [text|].
  2:{ rewrite andb_false_r, app_nil_r. repeat split; reflexivity. }
  rewrite andb_assoc.
  destruct (truthy_opt (secureStore w !! ACCESS_TOKEN K)
            && truthy_opt (secureStore w !! USER_TYPE K) && truthy text).
  2:{ rewrite app_nil_r. repeat split; reflexivity. }
  destruct (JSON.parse text); cbn [andb snd network requests secureStore console];
    rewrite ?app_nil_r; repeat split; reflexivity.
Qed.

(** X3.  Both registrations, on a response that passes the guard: the
    session returned is tagged with the fixed account kind, and the store
    afterwards holds the token, the refresh token, that account kind and
    the text the runtime's [JSON.stringify] gives for the user. *)
Theorem register_persists_session data_ w response w0 token user :
  independent K ->
  ok_token_user (data response) = Some (token, user) ->
  (apiClient_post K "/api/v1/user/mobile/register" (Some data_) w
   = (Resolved response, w0) ->
   exists w1,
     registerJobSeeker K data_ w
     = (Resolved
          {| LoginResponse.token := token;
             LoginResponse.refreshToken :=
               or_else (BackendAuthResponse.refreshToken (data response)) token;
             LoginResponse.user := user;
             LoginResponse.userType := jobseeker |}, w1)
     /\ entries K (secureStore w1)
        = [Some token;
           Some (or_else (BackendAuthResponse.refreshToken (data response)) token);
           Some "jobseeker"%string;
           Some (JSON.stringify (Object user))])
  /\ (apiClient_post K "/api/v1/client/mobile/register" (Some data_) w
      = (Resolved response, w0) ->
      exists w1,
        registerClient K data_ w
        = (Resolved
             {| LoginResponse.token := token;
                LoginResponse.refreshToken :=
                  or_else (BackendAuthResponse.refreshToken (data response)) token;
                LoginResponse.user := user;
                LoginResponse.userType := client |}, w1)
        /\ entries K (secureStore w1)
           = [Some token;
              Some (or_else (BackendAuthResponse.refreshToken (data response)) token);
              Some "client"%string;
              Some (JSON.stringify (Object user))]).
Proof.
  intros HK Hguard. split; intros Hpost.
  - change (registerJobSeeker K data_ w) with (run K (RegisterJobSeeker data_) w).
    rewrite run_eq. cbn [call_url call_body]. rewrite Hpost, Hguard.
    eexists. split; [reflexivity|].
    cbn [with_store secureStore]. apply (entries_session K), HK.
  - change (registerClient K data_ w) with (run K (RegisterClient data_) w).
    rewrite run_eq. cbn [call_url call_body]. rewrite Hpost, Hguard.
    eexists. split; [reflexivity|].
    cbn [with_store secureStore]. apply (entries_session K), HK.
Qed.

(** X4.  After a registration that resolved with a user that survives
    JSON serialization, [checkAuth] on the store it left answers
    authenticated with the fixed account kind and the user of the
    session. *)
Theorem register_then_checkAuth data_ w session w1 :
  independent K ->
  survives (Object (LoginResponse.user session)) ->
  (registerJobSeeker K data_ w = (Resolved session, w1) ->
   checkAuth K w1
   = (Resolved {| AuthState.isAuthenticated := true;
                  AuthState.userType := Some "jobseeker"%string;
                  AuthState.user := Some (Object (LoginResponse.user session)) |}, w1))
  /\ (registerClient K data_ w = (Resolved session, w1) ->
      checkAuth K w1
      = (Resolved {| AuthState.isAuthenticated := true;
                     AuthState.userType := Some "client"%string;
                     AuthState.user := Some (Object (LoginResponse.user session)) |}, w1)).
Proof.
  intros HK [Htext Hparse]. split; intros Hrun.
  - destruct (session_then_checkAuth K (RegisterJobSeeker data_) w session w1 HK Hrun)
      as (Hkind & _ & Hcheck).
    rewrite (Hcheck _ Htext Hparse), Hkind. reflexivity.
  - destruct (session_then_checkAuth K (RegisterClient data_) w session w1 HK Hrun)
      as (Hkind & _ & Hcheck).
    rewrite (Hcheck _ Htext Hparse), Hkind. reflexivity.
Qed.

(** X5.  Both registrations, on a response that fails the guard (no
    success flag, no token or an empty one, no user): they are rejected
    with an [Error] carrying the server's message when there is one, and
    ["Registration failed"] otherwise, in the world the Transport left. *)
Theorem register_failure_message data_ w response w0 :
  ok_token_user (data response) = None ->
  (apiClient_post K "/api/v1/user/mobile/register" (Some data_) w
   = (Resolved response, w0) ->
   registerJobSeeker K data_ w
   = (Rejected (Error (or_else (BackendAuthResponse.error (data response))
                         "Registration failed")), w0))
  /\ (apiClient_post K "/api/v1/client/mobile/register" (Some data_) w
      = (Resolved response, w0) ->
      registerClient K data_ w
      = (Rejected (Error (or_else (BackendAuthResponse.error (data response))
                            "Registration failed")), w0))
  /\ (forall msg,
        BackendAuthResponse.error (data response) = Some msg -> truthy msg = true ->
        or_else (BackendAuthResponse.error (data response)) "Registration failed" = msg)
  /\ (truthy_opt (BackendAuthResponse.error (data response)) = false ->
      or_else (BackendAuthResponse.error (data response)) "Registration failed"
      = "Registration failed"%string).
Proof.
  intros Hguard. split; [|split; [|split]].
  - intros Hpost.
    change (registerJobSeeker K data_ w) with (run K (RegisterJobSeeker data_) w).
    rewrite run_eq. cbn [call_url call_body]. rewrite Hpost, Hguard. reflexivity.
  - intros Hpost.
    change (registerClient K data_ w) with (run K (RegisterClient data_) w).
    rewrite run_eq. cbn [call_url call_body]. rewrite Hpost, Hguard. reflexivity.
  - intros msg -> Hmsg. cbn [or_else]. rewrite Hmsg. reflexivity.
  - unfold truthy_opt, or_else.
    destruct (BackendAuthResponse.error (data response)); [|reflexivity].
    intros ->. reflexivity.
Qed.

(** X6.  [login], [registerJobSeeker] and [registerClient] touch nothing
    but the four entries: every other key of the store is as the Transport
    left it, and so are the remote service's script, the log of requests
    and the console (the functions send no request of their own after the
    first and log nothing). *)
Theorem session_call_writes_only_four_entries c w k :
  k <> ACCESS_TOKEN K -> k <> REFRESH_TOKEN K -> k <> USER_TYPE K -> k <> USER_DATA K ->
  secureStore (snd (run K c w)) !! k
  = secureStore (snd (apiClient_post K (call_url c) (call_body c) w)) !! k
  /\ network (snd (run K c w))
     = network (snd (apiClient_post K (call_url c) (call_body c) w))
  /\ requests (snd (run K c w))
     = requests (snd (apiClient_post K (call_url c) (call_body c) w))
  /\ console (snd (run K c w))
     = console (snd (apiClient_post K (call_url c) (call_body c) w)).
Proof.
  intros Ha Hr Ht Hd. rewrite run_eq.
  destruct (apiClient_post K (call_url c) (call_body c) w) as [[response|e] w0];
    [|repeat split; reflexivity].
  destruct (ok_token_user (data response)) as [[token user]|];
    [|repeat split; reflexivity].
  cbn [snd with_store secureStore network requests console].
  repeat split. rewrite !lookup_insert_ne by congruence. reflexivity.
Qed.

(** X7.  [logout] swallows a rejected notification and logs it: whatever
    the Transport rejected the call with is not surfaced, the console gets
    one warning, and [clearAuthTokens] runs on that world; after a
    notification that went through, [clearAuthTokens] runs on the world
    the Transport left and nothing is logged. *)
Theorem logout_logs_failed_notification w :
  (forall response w0,
      apiClient_post K "/api/v1/user/logout" None w = (Resolved response, w0) ->
      logout K w = clearAuthTokens K w0)
  /\ (forall e w0,
        apiClient_post K "/api/v1/user/logout" None w = (Rejected e, w0) ->
        logout K w
        = clearAuthTokens K
            {| secureStore := secureStore w0; network := network w0;
               requests := requests w0;
               console := console w0 ++ ["Logout API call failed:"%string] |}).
Proof.
  split.
  - intros response w0 Hpost.
    unfold logout, try_catch, bind at 1 2. rewrite Hpost. reflexivity.
  - intros e w0 Hpost.
    unfold logout, try_catch, bind at 1 2. rewrite Hpost. reflexivity.
Qed.

(** X8.  [forgotPassword] and [registerPushToken] do not look at the
    response: they resolve on every response the Transport hands back,
    also one whose success flag is off, they pass a rejection of the
    Transport on as it is, and they leave the world as the Transport left
    it. *)
Theorem fire_and_forget_ignores_response w :
  (forall email kind,
      forgotPassword K email kind w
      = match apiClient_post K
                (match kind with
                 | jobseeker => "/api/v1/user/forgot-password"
                 | client => "/api/v1/client/forgot-password"
                 end)
                (Some (Object [("email"%string, Str email)])) w with
        | (Resolved _, w0) => (Resolved tt, w0)
        | (Rejected e, w0) => (Rejected e, w0)
        end)
  /\ (forall pushToken,
        registerPushToken K pushToken w
        = match apiClient_post K "/api/v1/notifications/register"
                  (Some (Object [("pushToken"%string, Str pushToken)])) w with
          | (Resolved _, w0) => (Resolved tt, w0)
          | (Rejected e, w0) => (Rejected e, w0)
          end)
  /\ (forall email kind response w0,
        apiClient_post K
          (match kind with
           | jobseeker => "/api/v1/user/forgot-password"
           | client => "/api/v1/client/forgot-password"
           end)
          (Some (Object [("email"%string, Str email)])) w = (Resolved response, w0) ->
        BackendAuthResponse.ok (data response) = false ->
        forgotPassword K email kind w = (Resolved tt, w0)).
Proof.
  assert (forall email kind,
      forgotPassword K email kind w
      = match apiClient_post K
                (match kind with
                 | jobseeker => "/api/v1/user/forgot-password"
                 | client => "/api/v1/client/forgot-password"
                 end)
                (Some (Object [("email"%string, Str email)])) w with
        | (Resolved _, w0) => (Resolved tt, w0)
        | (Rejected e, w0) => (Rejected e, w0)
        end) as Hforgot.
  { intros email kind. unfold forgotPassword, bind, ret.
    destruct (apiClient_post K _ _ w) as [[response|e] w0]; reflexivity. }
  split; [exact Hforgot|]. split.
  - intros pushToken. unfold registerPushToken, bind, ret.
    destruct (apiClient_post K _ _ w) as [[response|e] w0]; reflexivity.
  - intros email kind response w0 Hpost _. rewrite Hforgot, Hpost. reflexivity.
Qed.

(** X9.  [getCurrentUser] asks the endpoint of the account kind and
    returns the user of the response when the success flag is set and
    there is one; otherwise it is rejected with an [Error] carrying the
    server's message when there is one and ["Failed to get user"]
    otherwise.  A rejection of the Transport is passed on as it is. *)
Theorem getCurrentUser_result kind w :
  (forall response w0 user,
      apiClient_get K (me_url kind) w = (Resolved response, w0) ->
      BackendAuthResponse.ok (data response) = true ->
      BackendAuthResponse.user (data response) = Some user ->
      getCurrentUser K kind w = (Resolved user, w0))
  /\ (forall response w0,
        apiClient_get K (me_url kind) w = (Resolved response, w0) ->
        BackendAuthResponse.ok (data response) = false
        \/ BackendAuthResponse.user (data response) = None ->
        getCurrentUser K kind w
        = (Rejected (Error (or_else (BackendAuthResponse.error (data response))
                              "Failed to get user")), w0))
  /\ (forall e w0,
        apiClient_get K (me_url kind) w = (Rejected e, w0) ->
        getCurrentUser K kind w = (Rejected e, w0)).
Proof.
  assert (getCurrentUser K kind w
          = bind (apiClient_get K (me_url kind))
              (fun response =>
                 match ok_user (data response) with
                 | Some user => ret user
                 | None =>
                     throw (Error (or_else (BackendAuthResponse.error (data response))
                                     "Failed to get user"))
                 end) w) as Heq.
  { destruct kind; reflexivity. }
  rewrite Heq. unfold bind. split; [|split].
  - intros response w0 user -> Hok Huser.
    rewrite (proj2 (ok_user_Some (data response) user)) by auto. reflexivity.
  - intros response w0 -> Hshape.
    assert (ok_user (data response) = None) as ->; [|reflexivity].
    unfold ok_user. destruct Hshape as [->| ->]; [reflexivity|].
    destruct (BackendAuthResponse.ok (data response)); reflexivity.
  - intros e w0 ->. reflexivity.
Qed.

(** X10.  A profile update that succeeded, then [checkAuth]: when the
    store the Transport left holds an access token and an account kind and
    the user the server returned survives JSON serialization, [checkAuth]
    answers authenticated with that account kind and that user. *)
Theorem updateProfile_then_checkAuth kind fields w response w0 user t stored_kind :
  independent K ->
  survives (Object user) ->
  apiClient_put K (profile_url kind) (Some (Object fields)) w = (Resolved response, w0) ->
  BackendAuthResponse.ok (data response) = true ->
  BackendAuthResponse.user (data response) = Some user ->
  secureStore w0 !! ACCESS_TOKEN K = Some t -> truthy t = true ->
  secureStore w0 !! USER_TYPE K = Some stored_kind -> truthy stored_kind = true ->
  exists w1,
    updateProfile K kind fields w = (Resolved user, w1)
    /\ checkAuth K w1
       = (Resolved {| AuthState.isAuthenticated := true;
                      AuthState.userType := Some stored_kind;
                      AuthState.user := Some (Object user) |}, w1).
Proof.
  intros HK [Htext Hparse] Hput Hok Huser Ht Htruthy Hkind Hkind'.
  apply independent_ne in HK. destruct HK as (_ & _ & Had & _ & _ & Htd).
  rewrite updateProfile_eq, Hput.
  rewrite (proj2 (ok_user_Some (data response) user)) by auto.
  eexists. split; [reflexivity|].
  rewrite checkAuth_eq. cbn [with_store secureStore].
  rewrite lookup_insert_eq, !lookup_insert_ne by congruence.
  rewrite Ht, Hkind. cbn [truthy_opt].
  rewrite Htruthy, Hkind', Htext, Hparse. reflexivity.
Qed.

(** X11.  A profile update writes the user record and nothing else: every
    other key of the store, the remote service's script, the log of
    requests and the console are as the Transport left them, whatever the
    response. *)
Theorem updateProfile_writes_only_user_record kind fields w k :
  k <> USER_DATA K ->
  secureStore (snd (updateProfile K kind fields w)) !! k
  = secureStore (snd (apiClient_put K (profile_url kind) (Some (Object fields)) w)) !! k
  /\ network (snd (updateProfile K kind fields w))
     = network (snd (apiClient_put K (profile_url kind) (Some (Object fields)) w))
  /\ requests (snd (updateProfile K kind fields w))
     = requests (snd (apiClient_put K (profile_url kind) (Some (Object fields)) w))
  /\ console (snd (updateProfile K kind fields w))
     = console (snd (apiClient_put K (profile_url kind) (Some (Object fields)) w)).
Proof.
  intros Hk. rewrite updateProfile_eq.
  destruct (apiClient_put K (profile_url kind) (Some (Object fields)) w)
    as [[response|e] w0]; [|repeat split; reflexivity].
  destruct (ok_user (data response)) as [user|]; [|repeat split; reflexivity].
  cbn [snd with_store secureStore network requests console].
  repeat split. apply lookup_insert_ne. congruence.
Qed.

End MoreAuth.

(** ** The further properties, run on concrete worlds *)

Section MoreScenariosRun.

#[local] Existing Instance ecma.

(** A store whose account kind is ["admin"] and whose user record is the
    text [7.5]: [checkAuth] answers authenticated with that kind and the
    number 7.5 (the double 8444249301319680 * 2^-50) as the user. *)
Lemma checkAuth_authenticated_iff_witness :
  checkAuth example_keys unchecked_world
  = (Resolved {| AuthState.isAuthenticated := true;
                 AuthState.userType := Some "admin"%string;
                 AuthState.user := Some (Number (S754_finite false 8444249301319680 (-50))) |},
     unchecked_world)
  /\ (exists t kind text user,
        secureStore (session_world []) !! ACCESS_TOKEN example_keys = Some t
        /\ truthy t = true
        /\ secureStore (session_world []) !! USER_TYPE example_keys = Some kind
        /\ truthy kind = true
        /\ secureStore (session_world []) !! USER_DATA example_keys = Some text
        /\ truthy text = true
        /\ JSON.parse text = Some user).
Proof.
  split.
  - exact (proj1 (checkAuth_authenticated_iff example_keys unchecked_world)
             "T0"%string "admin"%string "7.5"%string
             (Number (S754_finite false 8444249301319680 (-50)))
             ltac:(vm_compute; reflexivity) ltac:(reflexivity)
             ltac:(vm_compute; reflexivity) ltac:(reflexivity)
             ltac:(vm_compute; reflexivity) ltac:(reflexivity)
             ltac:(vm_compute; reflexivity)).
  - destruct (proj2 (checkAuth_authenticated_iff (runtime := ecma) example_keys
                       (session_world []))
                {| AuthState.isAuthenticated := true;
                   AuthState.userType := Some "jobseeker"%string;
                   AuthState.user := Some (Object scenario_user) |}
                (session_world [])
                ltac:(vm_compute; reflexivity) ltac:(reflexivity))
      as (t & kind & text & user & Ht & Htruthy & Hkind & Hkind' & Htext & Htext'
          & Hparse & _).
    exists t, kind, text, user. repeat split; assumption.
Defined.

(** The text [01] is no JSON: unauthenticated, and one warning.  A record
    with white space and a fraction is JSON: authenticated with the record
    read, and no warning. *)
Lemma checkAuth_offline_witness :
  checkAuth example_keys leading_zero_world
  = (Resolved unauthenticated,
     {| secureStore := secureStore leading_zero_world; network := []; requests := [];
        console := ["Auth check failed:"%string] |})
  /\ console (snd (checkAuth example_keys leading_zero_world))
     = ["Auth check failed:"%string]
  /\ checkAuth example_keys spaced_world
     = (Resolved
          {| AuthState.isAuthenticated := true;
             AuthState.userType := Some "jobseeker"%string;
             AuthState.user :=
               Some (Object [("id"%string, Number (ECMA.double_of_Z 1));
                             ("rating"%string,
                              Number (S754_finite false 5066549580791808 (-50)))]) |},
        spaced_world)
  /\ console (snd (checkAuth example_keys spaced_world)) = [].
Proof.
  split; [vm_compute; reflexivity|]. split; [|split; [vm_compute; reflexivity|]].
  - rewrite (proj2 (proj2 (proj2 (checkAuth_offline (runtime := ecma) example_keys
                                    leading_zero_world)))).
    vm_compute. reflexivity.
  - rewrite (proj2 (proj2 (proj2 (checkAuth_offline (runtime := ecma) example_keys
                                    spaced_world)))).
    vm_compute. reflexivity.
Defined.

Lemma register_persists_session_witness :
  (exists w1,
      registerJobSeeker example_keys (Object scenario_user)
        (fresh_world [HttpResponse 200 register_response])
      = (Resolved {| LoginResponse.token := "T1";
                     LoginResponse.refreshToken := "T1";
                     LoginResponse.user := scenario_user;
                     LoginResponse.userType := jobseeker |}, w1)
      /\ entries example_keys (secureStore w1)
         = [Some "T1"%string; Some "T1"%string; Some "jobseeker"%string;
            Some scenario_user_text])
  /\ (exists w1,
        registerClient example_keys (Object scenario_user)
          (fresh_world [HttpResponse 200 register_response])
        = (Resolved {| LoginResponse.token := "T1";
                       LoginResponse.refreshToken := "T1";
                       LoginResponse.user := scenario_user;
                       LoginResponse.userType := client |}, w1)
        /\ entries example_keys (secureStore w1)
           = [Some "T1"%string; Some "T1"%string; Some "client"%string;
              Some scenario_user_text]).
Proof.
  split.
  - destruct (proj1 (register_persists_session example_keys (Object scenario_user)
                       (fresh_world [HttpResponse 200 register_response])
                       {| status := 200; data := register_response |}
                       (snd (apiClient_post example_keys "/api/v1/user/mobile/register"
                               (Some (Object scenario_user))
                               (fresh_world [HttpResponse 200 register_response])))
                       "T1"%string scenario_user example_keys_independent eq_refl)
                ltac:(vm_compute; reflexivity)) as (w1 & Hrun & Hentries).
    exists w1. split; [exact Hrun|]. rewrite Hentries. vm_compute. reflexivity.
  - destruct (proj2 (register_persists_session example_keys (Object scenario_user)
                       (fresh_world [HttpResponse 200 register_response])
                       {| status := 200; data := register_response |}
                       (snd (apiClient_post example_keys "/api/v1/client/mobile/register"
                               (Some (Object scenario_user))
                               (fresh_world [HttpResponse 200 register_response])))
                       "T1"%string scenario_user example_keys_independent eq_refl)
                ltac:(vm_compute; reflexivity)) as (w1 & Hrun & Hentries).
    exists w1. split; [exact Hrun|]. rewrite Hentries. vm_compute. reflexivity.
Defined.

Lemma register_then_checkAuth_witness :
  fst (checkAuth example_keys
         (snd (registerClient example_keys (Object scenario_user)
                 (fresh_world [HttpResponse 200 register_response]))))
  = Resolved {| AuthState.isAuthenticated := true;
                AuthState.userType := Some "client"%string;
                AuthState.user := Some (Object scenario_user) |}.
Proof.
  rewrite (proj2 (register_then_checkAuth example_keys (Object scenario_user)
                    (fresh_world [HttpResponse 200 register_response])
                    {| LoginResponse.token := "T1";
                       LoginResponse.refreshToken := "T1";
                       LoginResponse.user := scenario_user;
                       LoginResponse.userType := client |}
                    (snd (registerClient example_keys (Object scenario_user)
                            (fresh_world [HttpResponse 200 register_response])))
                    example_keys_independent
                    ltac:(split; vm_compute; reflexivity))
             ltac:(vm_compute; reflexivity)).
  reflexivity.
Defined.

Lemma register_failure_message_witness :
  fst (registerJobSeeker example_keys (Object scenario_user)
         (fresh_world [HttpResponse 200 (envelope false (Some "Email already registered"%string)
                                           None None None)]))
  = Rejected (Error "Email already registered").
Proof.
  rewrite (proj1 (register_failure_message example_keys (Object scenario_user)
                    (fresh_world [HttpResponse 200
                                    (envelope false (Some "Email already registered"%string)
                                       None None None)])
                    {| status := 200;
                       data := envelope false (Some "Email already registered"%string)
                                 None None None |}
                    (snd (apiClient_post example_keys "/api/v1/user/mobile/register"
                            (Some (Object scenario_user))
                            (fresh_world [HttpResponse 200
                                            (envelope false
                                               (Some "Email already registered"%string)
                                               None None None)])))
                    eq_refl)
             ltac:(vm_compute; reflexivity)).
  reflexivity.
Defined.

Lemma session_call_writes_only_four_entries_witness :
  secureStore (snd (login example_keys scenario_credentials
                      (themed_world [HttpResponse 200 login_response])))
  !! "theme"%string = Some "dark"%string.
Proof.
  exact (eq_trans
           (proj1 (session_call_writes_only_four_entries example_keys
                     (Login scenario_credentials)
                     (themed_world [HttpResponse 200 login_response]) "theme"%string
                     ltac:(vm_compute; discriminate) ltac:(vm_compute; discriminate)
                     ltac:(vm_compute; discriminate) ltac:(vm_compute; discriminate)))
           ltac:(vm_compute; reflexivity)).
Defined.

Lemma logout_logs_failed_notification_witness :
  console (snd (logout example_keys (session_world [])))
  = ["Logout API call failed:"%string]
  /\ console (snd (logout example_keys
                     (session_world [HttpResponse 200 (envelope true None None None None)])))
     = [].
Proof.
  split.
  - rewrite (proj2 (logout_logs_failed_notification example_keys (session_world []))
               NetworkError
               (snd (apiClient_post example_keys "/api/v1/user/logout" None
                       (session_world [])))
               ltac:(vm_compute; reflexivity)).
    reflexivity.
  - rewrite (proj1 (logout_logs_failed_notification example_keys
                      (session_world [HttpResponse 200 (envelope true None None None None)]))
               {| status := 200; data := envelope true None None None None |}
               (snd (apiClient_post example_keys "/api/v1/user/logout" None
                       (session_world
                          [HttpResponse 200 (envelope true None None None None)])))
               ltac:(vm_compute; reflexivity)).
    reflexivity.
Defined.

Lemma fire_and_forget_ignores_response_witness :
  fst (forgotPassword example_keys "a@b.com" client
         (fresh_world [HttpResponse 200 denied_response]))
  = Resolved tt.
Proof.
  rewrite (proj2 (proj2 (fire_and_forget_ignores_response example_keys
                           (fresh_world [HttpResponse 200 denied_response])))
             "a@b.com"%string client
             {| status := 200; data := denied_response |}
             (snd (apiClient_post example_keys "/api/v1/client/forgot-password"
                     (Some (Object [("email"%string, Str "a@b.com")]))
                     (fresh_world [HttpResponse 200 denied_response])))
             ltac:(vm_compute; reflexivity) eq_refl).
  reflexivity.
Defined.

Lemma getCurrentUser_result_witness :
  fst (getCurrentUser example_keys jobseeker (session_world [HttpResponse 200 me_response]))
  = Resolved scenario_user
  /\ fst (getCurrentUser example_keys client (session_world [HttpResponse 200 stale_response]))
     = Rejected (Error "stale data")
  /\ fst (getCurrentUser example_keys client (session_world [HttpResponse 500 stale_response]))
     = Rejected (HttpError 500 stale_response).
Proof.
  split; [|split].
  - rewrite (proj1 (getCurrentUser_result example_keys jobseeker
                      (session_world [HttpResponse 200 me_response]))
               {| status := 200; data := me_response |}
               (snd (apiClient_get example_keys "/api/v1/user/me"
                       (session_world [HttpResponse 200 me_response])))
               scenario_user ltac:(vm_compute; reflexivity) eq_refl eq_refl).
    reflexivity.
  - rewrite (proj1 (proj2 (getCurrentUser_result example_keys client
                             (session_world [HttpResponse 200 stale_response])))
               {| status := 200; data := stale_response |}
               (snd (apiClient_get example_keys "/api/v1/client/me"
                       (session_world [HttpResponse 200 stale_response])))
               ltac:(vm_compute; reflexivity) ltac:(left; reflexivity)).
    reflexivity.
  - rewrite (proj2 (proj2 (getCurrentUser_result example_keys client
                             (session_world [HttpResponse 500 stale_response])))
               (HttpError 500 stale_response)
               (snd (apiClient_get example_keys "/api/v1/client/me"
                       (session_world [HttpResponse 500 stale_response])))
               ltac:(vm_compute; reflexivity)).
    reflexivity.
Defined.

Lemma updateProfile_then_checkAuth_witness :
  exists w1,
    updateJobSeekerProfile example_keys [("email"%string, Str "c@d.com")]
      (session_world [HttpResponse 200 profile_response])
    = (Resolved updated_user, w1)
    /\ checkAuth example_keys w1
       = (Resolved {| AuthState.isAuthenticated := true;
                      AuthState.userType := Some "jobseeker"%string;
                      AuthState.user := Some (Object updated_user) |}, w1).
Proof.
  exact (updateProfile_then_checkAuth example_keys jobseeker
           [("email"%string, Str "c@d.com")]
           (session_world [HttpResponse 200 profile_response])
           {| status := 200; data := profile_response |}
           (snd (apiClient_put example_keys "/api/v1/user/profile"
                   (Some (Object [("email"%string, Str "c@d.com")]))
                   (session_world [HttpResponse 200 profile_response])))
           updated_user "T0"%string "jobseeker"%string
           example_keys_independent
           ltac:(split; vm_compute; reflexivity)
           ltac:(vm_compute; reflexivity) eq_refl eq_refl
           ltac:(vm_compute; reflexivity) eq_refl
           ltac:(vm_compute; reflexivity) eq_refl).
Defined.

Lemma updateProfile_writes_only_user_record_witness :
  secureStore (snd (updateClientProfile example_keys [("email"%string, Str "c@d.com")]
                      (session_world [HttpResponse 200 profile_response])))
  !! ACCESS_TOKEN example_keys = Some "T0"%string.
Proof.
  exact (eq_trans
           (proj1 (updateProfile_writes_only_user_record example_keys client
                     [("email"%string, Str "c@d.com")]
                     (session_world [HttpResponse 200 profile_response])
                     (ACCESS_TOKEN example_keys) ltac:(vm_compute; discriminate)))
           ltac:(vm_compute; reflexivity)).
Defined.

End MoreScenariosRun.

Lemma formatTime_12_hour_witness :
  formatTime "13:05" = "1:05pm"%string
  /\ formatTime "00:30" = "12:30am"%string
  /\ formatTime "12:00" = "12:00pm"%string.
Proof.
  split; [|split].
  - exact (proj1 (formatTime_12_hour (D1 (D3 Nil)) ltac:(discriminate) "05"%string
                    eq_refl ltac:(vm_compute; reflexivity))).
  - exact (proj1 (formatTime_12_hour (D0 (D0 Nil)) ltac:(discriminate) "30"%string
                    eq_refl ltac:(vm_compute; reflexivity))).
  - exact (proj1 (formatTime_12_hour (D1 (D2 Nil)) ltac:(discriminate) "00"%string
                    eq_refl ltac:(vm_compute; reflexivity))).
Defined.

Lemma formatTime_missing_minutes_witness : formatTime "9" = "9:undefinedam"%string.
Proof.
  exact (formatTime_missing_minutes (D9 Nil) ltac:(discriminate)
           ltac:(vm_compute; reflexivity)).
Defined.

Lemma formatTime_drops_seconds_witness : formatTime "13:05:59" = formatTime "13:05".
Proof.
  exact (formatTime_drops_seconds "13"%string "05"%string "59"%string eq_refl eq_refl).
Defined.

Lemma formatTime_missing_hour_witness : formatTime ":30" = "12:30am"%string.
Proof. exact (formatTime_missing_hour "30"%string eq_refl). Defined.
